(** * vectorizer: the request handler of [app.py] and the matrix engine it drives

    The development has five parts.

    - [Py]: the few Python builtins the handler relies on ([str.strip],
      [int], [float], exceptions).  A [str] is a [string] whose characters
      are read as the code points U+0000 to U+00FF.
    - [App]: [app.py] itself: the constants, [_safe_int],
      [_parse_optional_float] and the view function [index].
    - [MatrixUtils]: the module [matrix_utils] that [app.py] imports.  Its
      source is not in the repository tree at hand, so its functions are
      modelled from the written specification.
    - [Statements] and [Instance]: the vocabulary of the statements, and a
      small instance of the imports on which the handler runs.
    - [Observations] and [Studio]: what a response shows, and a second
      instance whose samplers work, for the properties of the whole handler.

    The theorems come last. *)

From Stdlib Require Import ZArith NArith List String Ascii Bool Lia.
From Stdlib Require Decimal DecimalString DecimalZ DecimalN DecimalNat DecimalPos.
Import ListNotations.

Local Open Scope string_scope.
Local Open Scope Z_scope.

(* ===================================================================== *)
(** * Python builtins                                                     *)
(* ===================================================================== *)

Module Py.

(** ** Exceptions and results *)

(** The exceptions the handler can tell apart: [except ValueError] catches
    the first constructor only, [except Exception] catches both.  The
    string is [str(exc)]. *)
Inductive exn : Type :=
| ValueError (msg : string)
| Exception_ (msg : string).

Definition str_exn (e : exn) : string :=
  match e with
  | ValueError msg => msg
  | Exception_ msg => msg
  end.

Inductive result (A : Type) : Type :=
| Ok (a : A)
| Raise (e : exn).

Arguments Ok {A} a.
Arguments Raise {A} e.

Definition bind {A B : Type} (r : result A) (k : A -> result B) : result B :=
  match r with
  | Ok a => k a
  | Raise e => Raise e
  end.

Notation "x <- r ;; k" := (bind r (fun x => k))
  (at level 61, r at next level, right associativity).

(** [for x in xs: ...] collecting results, stopping at the first raise. *)
Fixpoint mapM {A B : Type} (f : A -> result B) (xs : list A) : result (list B) :=
  match xs with
  | [] => Ok []
  | x :: rest =>
      y <- f x ;;
      ys <- mapM f rest ;;
      Ok (y :: ys)
  end.

(** ** Characters *)

Definition code (c : ascii) : N := N_of_ascii c.

(** [str.isspace] on one character, for the code points below U+0100:
    TAB, LF, VT, FF, CR, the separators FS, GS, RS, US, SPACE, NEL and
    NO-BREAK SPACE. *)
Definition isspace (c : ascii) : bool :=
  let n := code c in
  ((9 <=? n) && (n <=? 13) || (28 <=? n) && (n <=? 32)
   || (n =? 133) || (n =? 160))%N.

(** A decimal digit; below U+0100 these are ['0'] to ['9'] only. *)
Definition isdigit (c : ascii) : bool :=
  let n := code c in ((48 <=? n) && (n <=? 57))%N.

Definition digit_value (c : ascii) : Z := Z.of_N (code c) - 48.

(** [c.lower()] for an ASCII letter. *)
Definition lower (c : ascii) : ascii :=
  let n := code c in
  if ((65 <=? n) && (n <=? 90))%N then ascii_of_N (n + 32) else c.

Fixpoint lower_str (s : string) : string :=
  match s with
  | EmptyString => EmptyString
  | String c r => String (lower c) (lower_str r)
  end.

(** Every character of [s] satisfies [p]. *)
Fixpoint all_chars (p : ascii -> bool) (s : string) : bool :=
  match s with
  | EmptyString => true
  | String c r => p c && all_chars p r
  end.

(** ** [str.strip] *)

Definition is_empty (s : string) : bool :=
  match s with
  | EmptyString => true
  | String _ _ => false
  end.

(** Dropping the leading, and the trailing, characters that satisfy
    [space]. *)
Fixpoint lstrip_with (space : ascii -> bool) (s : string) : string :=
  match s with
  | EmptyString => EmptyString
  | String c r => if space c then lstrip_with space r else s
  end.

Fixpoint rstrip_with (space : ascii -> bool) (s : string) : string :=
  match s with
  | EmptyString => EmptyString
  | String c r =>
      let r' := rstrip_with space r in
      if space c && is_empty r' then EmptyString else String c r'
  end.

(** [s.strip()]. *)
Definition strip (s : string) : string :=
  rstrip_with isspace (lstrip_with isspace s).

(** The whitespace that [int] and [float] skip around a numeral: TAB, LF,
    VT, FF, CR, SPACE, NEL and NO-BREAK SPACE, and not the four separators
    FS, GS, RS, US that [str.strip] drops. *)
Definition isspace_numeral (c : ascii) : bool :=
  let n := code c in
  ((9 <=? n) && (n <=? 13) || (n =? 32) || (n =? 133) || (n =? 160))%N.

Definition strip_numeral (s : string) : string :=
  rstrip_with isspace_numeral (lstrip_with isspace_numeral s).

(** ** Numerals *)

(** The longest prefix of [s] that is a [digitpart] (digits, with single
    underscores allowed between two digits), returned without its
    underscores, and what follows it.  [after_digit] tells whether the
    character just before [s] was a digit. *)
Fixpoint span_digitpart (after_digit : bool) (s : string) : string * string :=
  match s with
  | EmptyString => (EmptyString, EmptyString)
  | String c r =>
      if isdigit c then
        let (ds, rest) := span_digitpart true r in (String c ds, rest)
      else if (Ascii.eqb c "_" && after_digit)%bool then
        match r with
        | String d _ =>
            if isdigit d then span_digitpart false r else (EmptyString, s)
        | EmptyString => (EmptyString, s)
        end
      else (EmptyString, s)
  end.

(** The value of a string of digits, most significant first. *)
Fixpoint digits_value (acc : Z) (ds : string) : Z :=
  match ds with
  | EmptyString => acc
  | String c r => digits_value (10 * acc + digit_value c) r
  end.

(** An optional sign. *)
Definition split_sign (s : string) : bool * string :=
  match s with
  | String "-" r => (true, r)
  | String "+" r => (false, r)
  | _ => (false, s)
  end.

(** [sys.get_int_max_str_digits()], at its default. *)
Definition int_max_str_digits : nat := 4300.

(** [int(s)] for a [str] [s]: the whitespace around is skipped, then an
    optional sign and a [digitpart] must make up the whole text, and the
    digits may not outnumber [int_max_str_digits].  [None] stands for the
    [ValueError] that [int] raises otherwise. *)
Definition int_of_str (s : string) : option Z :=
  let (negative, body) := split_sign (strip_numeral s) in
  match span_digitpart false body with
  | (String d ds, EmptyString) =>
      if (int_max_str_digits <? String.length (String d ds))%nat then None
      else
        let v := digits_value 0 (String d ds) in
        Some (if negative then - v else v)
  | _ => None
  end.

(** What [float] reads, before it is rounded to a binary64: a NaN, an
    infinity, or the decimal [mantissa * 10 ^ exp10] with its sign. *)
Inductive float : Type :=
| FNan
| FInf (negative : bool)
| FDec (negative : bool) (mantissa : Z) (exp10 : Z).

(** The exponent part: nothing, or [e]/[E], an optional sign and a
    [digitpart] up to the end of the text. *)
Definition exponent_of_str (s : string) : option Z :=
  match s with
  | EmptyString => Some 0
  | String c r =>
      if Ascii.eqb (lower c) "e" then
        let (negative, body) := split_sign r in
        match span_digitpart false body with
        | (String d ds, EmptyString) =>
            let v := digits_value 0 (String d ds) in
            Some (if negative then - v else v)
        | _ => None
        end
      else None
  end.

(** [float(s)] for a [str] [s]: the whitespace around is skipped, then
    comes an optional sign followed by [inf], [infinity] or [nan] in any
    letter case, or by a decimal numeral with digits on at least one side
    of an optional point and an optional exponent.  [None] stands for the
    [ValueError] that [float] raises otherwise. *)
Definition float_of_str (s : string) : option float :=
  let (negative, body) := split_sign (strip_numeral s) in
  let word := lower_str body in
  if (String.eqb word "inf" || String.eqb word "infinity")%bool then
    Some (FInf negative)
  else if String.eqb word "nan" then Some FNan
  else
    let (int_digits, after_int) := span_digitpart false body in
    let (frac_digits, after_frac) :=
      match after_int with
      | String "." r => span_digitpart false r
      | _ => (EmptyString, after_int)
      end in
    if (is_empty int_digits && is_empty frac_digits)%bool then None
    else
      match exponent_of_str after_frac with
      | Some e =>
          Some (FDec negative
                  (digits_value 0 (int_digits ++ frac_digits))
                  (e - Z.of_nat (String.length frac_digits)))
      | None => None
      end.

End Py.

(* ===================================================================== *)
(** * [app.py]                                                            *)
(* ===================================================================== *)

Module App.
Import Py.

Definition bytes : Type := string.

(** ** Module constants *)

Definition UPLOAD_LIMIT_BYTES : Z := 50 * 1024 * 1024.
Definition TARGET_SIZE : Z * Z := (50, 50).
Definition MAX_FRAMES_DISPLAY : Z := 25.

(** The dict [plot_form], whose five keys never change. *)
Record PlotForm : Type := {
  matrix_text : string;
  plot_title : string;
  plot_vmin : string;
  plot_vmax : string;
  plot_cmap : string
}.

Definition PLOT_DEFAULT_FORM : PlotForm := {|
  matrix_text := EmptyString;
  plot_title := "Before Levitt";
  plot_vmin := "0";
  plot_vmax := "255";
  plot_cmap := "gray"
|}.

Definition PLOT_CMAPS : list (string * string) :=
  [ ("gray", "Gray");
    ("viridis", "Viridis");
    ("plasma", "Plasma");
    ("magma", "Magma");
    ("inferno", "Inferno") ].

(** ** The request *)

(** [request.form] and [request.files]: multi-dicts, whose [get] returns
    the first value stored under the key. *)
Definition MultiDict (V : Type) : Type := list (string * V).

Fixpoint get {V : Type} (d : MultiDict V) (key : string) : option V :=
  match d with
  | [] => None
  | (k, v) :: rest => if String.eqb k key then Some v else get rest key
  end.

Definition get_default {V : Type} (d : MultiDict V) (key : string) (default : V) : V :=
  match get d key with
  | Some v => v
  | None => default
  end.

(** An uploaded file.  A file object is truthy when its name is neither
    [None] nor empty. *)
Record FileStorage : Type := {
  filename : option string;
  stream : bytes
}.

Definition file_chosen (file : option FileStorage) : option FileStorage :=
  match file with
  | Some f =>
      match filename f with
      | Some (String _ _) => Some f
      | _ => None
      end
  | None => None
  end.

Record Request : Type := {
  method : string;
  form : MultiDict string;
  files : MultiDict FileStorage
}.

(** ** [_safe_int] *)

(** [int(raw_value)] is the only call in the [try] block that can raise,
    and what it raises on a [str] is a [ValueError], which the [except]
    clause replaces by [default]. *)
Definition _safe_int (raw_value : option string) (default min_value : Z)
    (max_value : option Z) : Z :=
  let value :=
    match raw_value with
    | Some s =>
        match int_of_str s with
        | Some v => v
        | None => default
        end
    | None => default
    end in
  let value := Z.max min_value value in
  match max_value with
  | Some m => Z.min m value
  | None => value
  end.

(** ** [_parse_optional_float] *)

Definition _parse_optional_float (raw_value : option string)
    (field_name : string) : result (option float) :=
  match raw_value with
  | None => Ok None
  | Some raw =>
      let stripped := strip raw in
      if is_empty stripped then Ok None
      else
        match float_of_str stripped with
        | Some x => Ok (Some x)
        | None => Raise (ValueError (field_name ++ " must be a number."))
        end
  end.

(** ** Formatting helpers of the f-strings *)

(** [str(n)] for a natural number. *)
Definition str_nat (n : nat) : string := DecimalString.NilZero.string_of_uint (Nat.to_uint n).

Fixpoint zeros (n : nat) : string :=
  match n with
  | O => EmptyString
  | S k => String "0" (zeros k)
  end.

(** [f"{n:03d}"]. *)
Definition format_03d (n : nat) : string :=
  let s := str_nat n in zeros (3 - String.length s) ++ s.

(** [enumerate(xs, start)]. *)
Fixpoint enumerate {A : Type} (xs : list A) (start : nat) : list (nat * A) :=
  match xs with
  | [] => []
  | x :: rest => (start, x) :: enumerate rest (S start)
  end.

(** ** The template context *)

Record VideoOutput : Type := {
  label : string;
  matrix : string
}.

Record PlotResult : Type := {
  title : string;
  data_url : string
}.

(** The keyword arguments of [render_template]. *)
Record Context : Type := {
  image_output : option string;
  image_error : option string;
  video_outputs : option (list VideoOutput);
  video_error : option string;
  max_frames : Z;
  plot_result : option PlotResult;
  plot_error : option string;
  plot_form : PlotForm;
  plot_cmaps : list (string * string)
}.

(** The context built from the locals as [index] initialises them. *)
Definition initial_context : Context := {|
  image_output := None;
  image_error := None;
  video_outputs := None;
  video_error := None;
  max_frames := MAX_FRAMES_DISPLAY;
  plot_result := None;
  plot_error := None;
  plot_form := PLOT_DEFAULT_FORM;
  plot_cmaps := PLOT_CMAPS
|}.

Definition image_context (output error : option string) : Context := {|
  image_output := output;
  image_error := error;
  video_outputs := None;
  video_error := None;
  max_frames := MAX_FRAMES_DISPLAY;
  plot_result := None;
  plot_error := None;
  plot_form := PLOT_DEFAULT_FORM;
  plot_cmaps := PLOT_CMAPS
|}.

Definition video_context (outputs : option (list VideoOutput))
    (error : option string) : Context := {|
  image_output := None;
  image_error := None;
  video_outputs := outputs;
  video_error := error;
  max_frames := MAX_FRAMES_DISPLAY;
  plot_result := None;
  plot_error := None;
  plot_form := PLOT_DEFAULT_FORM;
  plot_cmaps := PLOT_CMAPS
|}.

Definition plot_context (result : option PlotResult) (error : option string)
    (form : PlotForm) : Context := {|
  image_output := None;
  image_error := None;
  video_outputs := None;
  video_error := None;
  max_frames := MAX_FRAMES_DISPLAY;
  plot_result := result;
  plot_error := error;
  plot_form := form;
  plot_cmaps := PLOT_CMAPS
|}.

(** ** The frame-selection parameters of a video request *)

Definition request_frame_skip (form : MultiDict string) : Z :=
  _safe_int (get form "frame_skip") 1 1 None.

Definition request_max_frames (form : MultiDict string) : Z :=
  _safe_int (get form "max_frames") 10 1 (Some MAX_FRAMES_DISPLAY).

(** ** The plot form of a plot request *)

(** [{value for value, _ in PLOT_CMAPS}]. *)
Definition valid_cmap_values : list string := map fst PLOT_CMAPS.

Definition member (x : string) (xs : list string) : bool :=
  existsb (String.eqb x) xs.

(** [request.form.get("plot_cmap") or PLOT_DEFAULT_FORM["plot_cmap"]],
    then the membership test. *)
Definition request_cmap (form : MultiDict string) : string :=
  let requested_cmap :=
    match get form "plot_cmap" with
    | Some (String c r) => String c r
    | _ => plot_cmap PLOT_DEFAULT_FORM
    end in
  if negb (member requested_cmap valid_cmap_values)
  then plot_cmap PLOT_DEFAULT_FORM
  else requested_cmap.

Definition request_plot_form (form : MultiDict string) : PlotForm := {|
  matrix_text := get_default form "matrix_text" EmptyString;
  plot_title := get_default form "plot_title" (plot_title PLOT_DEFAULT_FORM);
  plot_vmin := get_default form "plot_vmin" (plot_vmin PLOT_DEFAULT_FORM);
  plot_vmax := get_default form "plot_vmax" (plot_vmax PLOT_DEFAULT_FORM);
  plot_cmap := request_cmap form
|}.

(** ** The view function *)

Section Index.

(** What [app.py] imports: the five functions of [matrix_utils], over
    their own matrix type, and [base64.b64encode] followed by
    [decode("ascii")]. *)
Variable Matrix : Type.
Variable format_matrix_as_sage : Matrix -> string -> result string.
Variable image_to_matrix : bytes -> Z * Z -> bool -> result Matrix.
Variable matrix_to_plot_png :
  Matrix -> string -> option float -> option float -> option string ->
  result bytes.
Variable parse_matrix_literal : string -> result Matrix.
Variable video_to_matrices :
  FileStorage -> Z * Z -> bool -> Z -> Z -> result (list Matrix).
Variable b64encode : bytes -> string.

Definition index_image (request : Request) : result Context :=
  match file_chosen (get (files request) "image") with
  | None => Ok (image_context None (Some "Please choose an image to upload."))
  | Some file =>
      match
        (matrix <- image_to_matrix (stream file) TARGET_SIZE true ;;
         format_matrix_as_sage matrix "M")
      with
      | Ok output => Ok (image_context (Some output) None)
      | Raise exc =>
          Ok (image_context None
                (Some ("Failed to process image: " ++ str_exn exc)))
      end
  end.

Definition video_output (entry : nat * Matrix) : result VideoOutput :=
  let (index, matrix) := entry in
  text <- format_matrix_as_sage matrix ("M_" ++ format_03d index) ;;
  Ok {| label := "Frame " ++ str_nat index; matrix := text |}.

Definition index_video (request : Request) : result Context :=
  match file_chosen (get (files request) "video") with
  | None => Ok (video_context None (Some "Please choose a video to upload."))
  | Some file =>
      let frame_skip := request_frame_skip (form request) in
      let max_frames := request_max_frames (form request) in
      match
        (matrices <-
           video_to_matrices file TARGET_SIZE true frame_skip max_frames ;;
         match matrices with
         | [] => Ok (video_context None
                       (Some "No readable frames were detected in this video."))
         | _ :: _ =>
             outputs <- mapM video_output (enumerate matrices 1) ;;
             Ok (video_context (Some outputs) None)
         end)
      with
      | Ok context => Ok context
      | Raise exc =>
          Ok (video_context None
                (Some ("Failed to process video: " ++ str_exn exc)))
      end
  end.

Definition index_plot (request : Request) : result Context :=
  let plot_form := request_plot_form (form request) in
  let matrix_text := matrix_text plot_form in
  if is_empty (strip matrix_text) then
    Ok (plot_context None
          (Some "Paste a matrix definition to generate a plot.") plot_form)
  else
    match parse_matrix_literal matrix_text with
    | Raise (ValueError msg) => Ok (plot_context None (Some msg) plot_form)
    | Raise exc => Raise exc
    | Ok matrix =>
        match
          (vmin_value <- _parse_optional_float (Some (plot_vmin plot_form)) "vmin" ;;
           vmax_value <- _parse_optional_float (Some (plot_vmax plot_form)) "vmax" ;;
           Ok (vmin_value, vmax_value))
        with
        | Raise (ValueError msg) => Ok (plot_context None (Some msg) plot_form)
        | Raise exc => Raise exc
        | Ok (vmin_value, vmax_value) =>
            let title_value :=
              let stripped := strip (plot_title plot_form) in
              if is_empty stripped then None else Some stripped in
            match
              matrix_to_plot_png matrix (plot_cmap plot_form)
                vmin_value vmax_value title_value
            with
            | Raise exc =>
                Ok (plot_context None
                      (Some ("Failed to generate plot: " ++ str_exn exc))
                      plot_form)
            | Ok png_bytes =>
                let encoded := b64encode png_bytes in
                Ok (plot_context
                      (Some {| title :=
                                 match title_value with
                                 | Some t => t
                                 | None => "Matrix Plot"
                                 end;
                               data_url := "data:image/png;base64," ++ encoded |})
                      None plot_form)
            end
        end
    end.

(** [index]: the context handed to [render_template], or the exception
    that escapes the view. *)
Definition index (request : Request) : result Context :=
  if String.eqb (method request) "POST" then
    let mode := get_default (form request) "mode" "image" in
    if String.eqb mode "image" then index_image request
    else if String.eqb mode "video" then index_video request
    else if String.eqb mode "plot" then index_plot request
    else Ok initial_context
  else Ok initial_context.

End Index.

End App.

(* ===================================================================== *)
(** * [matrix_utils], from the specification                              *)
(* ===================================================================== *)

Module MatrixUtils.
Import Py.

(** ** Data model *)

(** Modelled from the spec: a numeric value of a Matrix ("integers or
    reals").  The source of [matrix_utils] is missing; a value is kept
    here as the exact decimal [mantissa / 10 ^ scale], an integer being a
    value of scale 0. *)
Record number : Type := {
  mantissa : Z;
  scale : nat
}.

Definition of_Z (z : Z) : number := {| mantissa := z; scale := 0 |}.

Definition is_integer (x : number) : bool := Nat.eqb (scale x) 0.

Definition pow10 (n : nat) : Z := 10 ^ Z.of_nat n.

(** [x < y], by cross-multiplication. *)
Definition number_ltb (x y : number) : bool :=
  mantissa x * pow10 (scale y) <? mantissa y * pow10 (scale x).

(** Modelled from the spec: the Matrix, "rectangular, 2-D ordered grid of
    numeric values", row-major.  The source of [matrix_utils] is missing. *)
Definition Matrix : Type := list (list number).

(** The invariant of the data model: at least one row, every row of the
    same length, that length at least 1. *)
Definition width (m : Matrix) : nat :=
  match m with
  | [] => O
  | row :: _ => List.length row
  end.

Definition well_formed (m : Matrix) : bool :=
  negb (Nat.eqb (List.length m) 0)
  && negb (Nat.eqb (width m) 0)
  && forallb (fun row => Nat.eqb (List.length row) (width m)) m.

Definition integer_entries (m : Matrix) : bool :=
  forallb (forallb is_integer) m.

(** Modelled from the spec: the four error kinds of section 7, each with
    its message, and the outcome of a call of the engine.  [Crash] is any
    exception outside the four kinds, such as a division by zero.  The
    source of [matrix_utils] is missing. *)
Inductive error : Type :=
| DecodeError (msg : string)
| ParseError (msg : string)
| RangeError (msg : string)
| RenderError (msg : string)
| Crash (msg : string).

Inductive outcome (A : Type) : Type :=
| Done (a : A)
| Failed (e : error).

Arguments Done {A} a.
Arguments Failed {A} e.

(** ** Literal codec: [format] *)

(** [str(z)] for an integer. *)
Definition str_Z (z : Z) : string := DecimalString.NilZero.string_of_int (Z.to_int z).

Fixpoint join (sep : string) (parts : list string) : string :=
  match parts with
  | [] => EmptyString
  | [p] => p
  | p :: rest => p ++ sep ++ join sep rest
  end.

(** Modelled from the spec: "integer-valued entries render without a
    decimal point; non-integer entries render with full precision".  The
    source of [format_matrix_as_sage] is missing. *)
Definition format_number (x : number) : string :=
  let p := pow10 (scale x) in
  if (mantissa x mod p =? 0) then str_Z (mantissa x / p)
  else
    let a := Z.abs (mantissa x) in
    let frac := str_Z (a mod p) in
    (if mantissa x <? 0 then "-" else EmptyString)
      ++ str_Z (a / p) ++ "."
      ++ App.zeros (scale x - String.length frac) ++ frac.

Definition format_row (row : list number) : string :=
  "[" ++ join ", " (map format_number row) ++ "]".

(** Modelled from the spec: "a textual assignment of the form
    [<variable_name> = <bracketed row-major literal>]", rows and entries
    separated as in [[[n11, n12], [n21, n22]]].  The source of
    [format_matrix_as_sage] is missing. *)
Definition format_matrix_as_sage (m : Matrix) (variable_name : string) : string :=
  variable_name ++ " = " ++ "[" ++ join ", " (map format_row m) ++ "]".

(** Modelled from the spec: a "valid bare identifier (letters, digits,
    underscore, not digit-first)". *)
Definition isletter (c : ascii) : bool :=
  let n := code c in
  ((65 <=? n) && (n <=? 90) || (97 <=? n) && (n <=? 122))%N.

Definition identifier_char (c : ascii) : bool :=
  isletter c || isdigit c || Ascii.eqb c "_".

Definition valid_identifier (s : string) : bool :=
  match s with
  | EmptyString => false
  | String c _ => negb (isdigit c) && all_chars identifier_char s
  end.

(** ** Literal codec: [parse] *)

Inductive token : Type :=
| TOpen
| TClose
| TComma
| TWord (w : string).

Definition flush (word : string) (ts : list token) : list token :=
  if is_empty word then ts else TWord word :: ts.

(** Modelled from the spec: the tokens of the "free-form text" that
    [parse] accepts.  Brackets and commas stand alone, whitespace separates,
    and every other run of characters is a word; [word] is the run read so
    far.  The source of [parse_matrix_literal] is missing. *)
Fixpoint lex (word : string) (s : string) : list token :=
  match s with
  | EmptyString => flush word []
  | String c r =>
      if isspace c then flush word (lex EmptyString r)
      else if Ascii.eqb c "[" then flush word (TOpen :: lex EmptyString r)
      else if Ascii.eqb c "]" then flush word (TClose :: lex EmptyString r)
      else if Ascii.eqb c "," then flush word (TComma :: lex EmptyString r)
      else lex (word ++ String c EmptyString) r
  end.

(** An optional minus sign. *)
Definition split_minus (w : string) : bool * string :=
  match w with
  | String c r => if Ascii.eqb c "-" then (true, r) else (false, w)
  | EmptyString => (false, w)
  end.

(** What stands before the first point of [s], and what follows it when
    there is a point. *)
Fixpoint split_at_point (s : string) : string * option string :=
  match s with
  | EmptyString => (EmptyString, None)
  | String c r =>
      if Ascii.eqb c "." then (EmptyString, Some r)
      else let (whole, frac) := split_at_point r in (String c whole, frac)
  end.

(** One digit or more. *)
Definition is_digits (s : string) : bool :=
  negb (is_empty s) && all_chars isdigit s.

(** Modelled from the spec: a numeric token, "matching -?\d+(\.\d+)?". *)
Definition number_of_token (w : string) : option number :=
  let (negative, body) := split_minus w in
  let signed (v : Z) := if negative then - v else v in
  match split_at_point body with
  | (whole, None) =>
      if is_digits whole
      then Some {| mantissa := signed (digits_value 0 whole); scale := 0 |}
      else None
  | (whole, Some frac) =>
      if is_digits whole && is_digits frac
      then Some {| mantissa := signed (digits_value 0 (whole ++ frac));
                   scale := String.length frac |}
      else None
  end.

(** Where the parser stands inside the outer bracket. *)
Inductive position : Type :=
| BeforeRow
| InRow (entries : list number) (need_entry : bool)
| AfterRow.

(** Modelled from the spec: "an outer bracket enclosing one or more
    comma-separated row brackets, each row a comma-separated list of numeric
    tokens", read up to the closing bracket; what follows it is ignored.
    The rows read so far are kept last first, as are the entries of the row
    being read.  The source of [parse_matrix_literal] is missing. *)
Fixpoint parse_tokens (rows : list (list number)) (pos : position)
    (ts : list token) : outcome Matrix :=
  match ts with
  | [] => Failed (ParseError "Unbalanced brackets in matrix literal.")
  | t :: rest =>
      match pos, t with
      | BeforeRow, TOpen => parse_tokens rows (InRow [] true) rest
      | BeforeRow, TClose =>
          match rows with
          | [] => Failed (ParseError "Matrix literal has no rows.")
          | _ :: _ => Failed (ParseError "Expected a row after the comma.")
          end
      | BeforeRow, _ => Failed (ParseError "Expected a bracketed row.")
      | InRow entries true, TWord w =>
          match number_of_token w with
          | Some x => parse_tokens rows (InRow (x :: entries) false) rest
          | None => Failed (ParseError ("Not a number: " ++ w))
          end
      | InRow entries true, TClose =>
          match entries with
          | [] => Failed (ParseError "Matrix row has no entries.")
          | _ :: _ => Failed (ParseError "Expected a number after the comma.")
          end
      | InRow _ true, TComma => Failed (ParseError "Expected a number.")
      | InRow entries false, TComma => parse_tokens rows (InRow entries true) rest
      | InRow entries false, TClose =>
          let row := List.rev entries in
          match rows with
          | first :: _ =>
              if Nat.eqb (List.length first) (List.length row)
              then parse_tokens (row :: rows) AfterRow rest
              else Failed (ParseError "Row length mismatch: all rows must have the same length.")
          | [] => parse_tokens (row :: rows) AfterRow rest
          end
      | InRow _ false, TWord _ =>
          Failed (ParseError "Expected a comma between numbers.")
      | InRow _ _, TOpen =>
          Failed (ParseError "Unbalanced brackets in matrix literal.")
      | AfterRow, TComma => parse_tokens rows BeforeRow rest
      | AfterRow, TClose => Done (List.rev rows)
      | AfterRow, _ => Failed (ParseError "Expected a comma between rows.")
      end
  end.

(** Modelled from the spec: the "surrounding assignment syntax" is
    "tolerated and stripped".  What follows the first opening bracket of
    the text, if there is one. *)
Fixpoint after_first_open (s : string) : option string :=
  match s with
  | EmptyString => None
  | String c r => if Ascii.eqb c "[" then Some r else after_first_open r
  end.

(** Modelled from the spec: [parse], which "accepts free-form text
    containing a matrix literal", tolerates whitespace and the assignment
    syntax around it, ignores what follows the closing bracket, and fails
    with a [ParseError] on empty input, unbalanced brackets, rows of
    differing lengths, non-numeric tokens and zero rows or columns.  The
    source of [parse_matrix_literal] is missing. *)
Definition parse_matrix_literal (text : string) : outcome Matrix :=
  let stripped := strip text in
  if is_empty stripped then Failed (ParseError "Matrix text is empty.")
  else
    match after_first_open stripped with
    | None => Failed (ParseError "No matrix literal found.")
    | Some body => parse_tokens [] BeforeRow (lex EmptyString body)
    end.

Definition bind {A B : Type} (r : outcome A) (k : A -> outcome B) : outcome B :=
  match r with
  | Done a => k a
  | Failed e => Failed e
  end.

Fixpoint traverse {A B : Type} (f : A -> outcome B) (xs : list A) : outcome (list B) :=
  match xs with
  | [] => Done []
  | x :: rest =>
      bind (f x) (fun y => bind (traverse f rest) (fun ys => Done (y :: ys)))
  end.

(** ** Image sampler *)

(** A grid of grayscale intensities, row-major. *)
Definition Grid : Type := list (list Z).

Definition minimum (xs : list Z) : option Z :=
  match xs with
  | [] => None
  | x :: rest => Some (fold_left Z.min rest x)
  end.

Definition maximum (xs : list Z) : option Z :=
  match xs with
  | [] => None
  | x :: rest => Some (fold_left Z.max rest x)
  end.

(** Modelled from the spec: the linear map of the range [lo, hi] onto
    [0, 255], "rounding to nearest integer" (a tie goes up; the spec leaves
    ties open).  The division is the one that a range of width zero would
    make fail. *)
Definition linear_rescale (lo hi v : Z) : outcome Z :=
  let range := hi - lo in
  if range =? 0 then Failed (Crash "division by zero")
  else Done ((2 * ((v - lo) * 255) + range) / (2 * range)).

(** Modelled from the spec: the rescale step, whose "bounds are taken from
    the resampled data's own min/max" and which, "when min equals max",
    gives "a constant matrix at value 0".  The source of [image_to_matrix]
    is missing. *)
Definition rescale_grid (g : Grid) : outcome Grid :=
  match minimum (List.concat g), maximum (List.concat g) with
  | Some lo, Some hi =>
      if lo =? hi then Done (map (map (fun _ => 0)) g)
      else traverse (traverse (linear_rescale lo hi)) g
  | _, _ => Done g
  end.

Definition matrix_of_grid (g : Grid) : Matrix := map (map of_Z) g.

Section Samplers.

(** The media decoders, outside the engine: a decoded still image, the
    decoder of an encoded image ([None] when the bytes are not a complete
    image), the grayscale conversion, the resampling onto a target grid,
    and the container reader, which gives the frames in presentation
    order ([None] when the container cannot be opened or holds no video
    stream). *)
Variable Image : Type.
Variable decode_image : App.bytes -> option Image.
Variable grayscale : Image -> Grid.
Variable resize : Grid -> Z * Z -> Grid.
Variable open_video : App.bytes -> option (list Image).

(** Modelled from the spec: the pipeline "grayscale + resize + rescale"
    of the Image Sampler.  The source of [image_to_matrix] is missing. *)
Definition sample_image (image : Image) (size : Z * Z) (rescale : bool)
    : outcome Matrix :=
  let resampled := resize (grayscale image) size in
  if rescale then
    bind (rescale_grid resampled) (fun g => Done (matrix_of_grid g))
  else Done (matrix_of_grid resampled).

(** Modelled from the spec: [sample(image_bytes, spec)], which "fails
    with DecodeError if bytes are not a recognized/complete image".  The
    source of [image_to_matrix] is missing. *)
Definition image_to_matrix (stream : App.bytes) (size : Z * Z)
    (rescale : bool) : outcome Matrix :=
  match decode_image stream with
  | None => Failed (DecodeError "cannot identify image file")
  | Some image => sample_image image size rescale
  end.

(** ** Video sampler *)

(** Modelled from the spec: the frame walk.  "A frame is selected when its
    0-based decode index modulo frame_skip equals 0.  Selection continues
    until either the stream is exhausted or max_frames selected frames
    have been emitted."  [index] is the decode index of the head of
    [frames], [emitted] the number of frames selected before it. *)
Fixpoint select_frames (frame_skip max_frames : Z) (index emitted : Z)
    (frames : list Image) : list Image :=
  match frames with
  | [] => []
  | frame :: rest =>
      if max_frames <=? emitted then []
      else if index mod frame_skip =? 0 then
        frame :: select_frames frame_skip max_frames (index + 1) (emitted + 1) rest
      else select_frames frame_skip max_frames (index + 1) emitted rest
  end.

(** Modelled from the spec: [sample_video], which fails with
    [DecodeError] when the container cannot be opened, passes each
    selected frame through the pipeline of the Image Sampler, and returns
    the matrices earliest first.  The source of [video_to_matrices] is
    missing. *)
Definition video_to_matrices (stream : App.bytes) (size : Z * Z)
    (rescale : bool) (frame_skip max_frames : Z) : outcome (list Matrix) :=
  match open_video stream with
  | None => Failed (DecodeError "cannot open video")
  | Some frames =>
      traverse (fun frame => sample_image frame size rescale)
        (select_frames frame_skip max_frames 0 0 frames)
  end.

End Samplers.

(** ** Heatmap renderer *)

Definition COLOR_SCALES : list string :=
  ["gray"; "viridis"; "plasma"; "magma"; "inferno"].

(** Modelled from the spec: "unrecognized names fall back to gray". *)
Definition resolve_scale (name : string) : string :=
  if App.member name COLOR_SCALES then name else "gray".

Definition number_min (x y : number) : number := if number_ltb y x then y else x.
Definition number_max (x y : number) : number := if number_ltb x y then y else x.

(** The least and the greatest entry of a matrix that has entries. *)
Definition matrix_minimum (m : Matrix) : number :=
  match List.concat m with
  | [] => of_Z 0
  | x :: rest => fold_left number_min rest x
  end.

Definition matrix_maximum (m : Matrix) : number :=
  match List.concat m with
  | [] => of_Z 0
  | x :: rest => fold_left number_max rest x
  end.

(** Modelled from the spec: the effective bounds, each one explicit when
    given, "else computed from the matrix's actual minimum/maximum". *)
Definition resolve_vmin (m : Matrix) (vmin : option number) : number :=
  match vmin with
  | Some v => v
  | None => matrix_minimum m
  end.

Definition resolve_vmax (m : Matrix) (vmax : option number) : number :=
  match vmax with
  | Some v => v
  | None => matrix_maximum m
  end.

(** Zero rows or zero columns. *)
Definition degenerate (m : Matrix) : bool :=
  Nat.eqb (List.length m) 0 || Nat.eqb (width m) 0.

Section Renderer.

(** The raster encoder, outside the model: the PNG of a matrix under a
    color scale, the two bounds and an optional title. *)
Variable encode_png :
  Matrix -> string -> number -> number -> option string -> App.bytes.

(** Modelled from the spec: [render(matrix, render_spec)], which fails
    with [RenderError] on a degenerate matrix and with [RangeError] "if
    vmin > vmax after resolution".  The source of [matrix_to_plot_png] is
    missing. *)
Definition matrix_to_plot_png (m : Matrix) (cmap : string)
    (vmin vmax : option number) (title : option string) : outcome App.bytes :=
  if degenerate m then Failed (RenderError "Matrix has no rows or no columns.")
  else
    let lo := resolve_vmin m vmin in
    let hi := resolve_vmax m vmax in
    if number_ltb hi lo then Failed (RangeError "vmin must not exceed vmax.")
    else Done (encode_png m (resolve_scale cmap) lo hi title).

End Renderer.

End MatrixUtils.

(* ===================================================================== *)
(** * Vocabulary of the statements                                        *)
(* ===================================================================== *)

Module Statements.
Import Py.

(** The value [_safe_int] clamps: what [int] read, or the default. *)
Definition parsed_or (raw_value : option string) (default : Z) : Z :=
  match raw_value with
  | Some s =>
      match int_of_str s with
      | Some v => v
      | None => default
      end
  | None => default
  end.

Definition clamp (min_value : Z) (max_value : option Z) (value : Z) : Z :=
  match max_value with
  | Some m => Z.min m (Z.max min_value value)
  | None => Z.max min_value value
  end.

(** The frames whose 0-based index is a multiple of [frame_skip], in
    order. *)
Definition at_multiples {A : Type} (frame_skip : Z) (frames : list A) : list A :=
  map snd
    (filter (fun entry => Z.of_nat (fst entry) mod frame_skip =? 0)
       (combine (seq 0 (List.length frames)) frames)).

(** A character that the lexer of the literal codec puts into a word. *)
Definition word_char (c : ascii) : bool :=
  negb (isspace c) && negb (Ascii.eqb c "[") && negb (Ascii.eqb c "]")
  && negb (Ascii.eqb c ",").

(** The tokens of a formatted matrix: of the entries of a row, of a row,
    and of the rows. *)
Fixpoint entry_tokens (words : list string) : list MatrixUtils.token :=
  match words with
  | [] => []
  | [w] => [MatrixUtils.TWord w]
  | w :: rest => MatrixUtils.TWord w :: MatrixUtils.TComma :: entry_tokens rest
  end.

Definition row_tokens (row : list MatrixUtils.number) : list MatrixUtils.token :=
  MatrixUtils.TOpen
    :: entry_tokens (map MatrixUtils.format_number row) ++ [MatrixUtils.TClose].

Fixpoint rows_tokens (rows : list (list MatrixUtils.number))
    : list MatrixUtils.token :=
  match rows with
  | [] => []
  | [row] => row_tokens row
  | row :: rest => row_tokens row ++ MatrixUtils.TComma :: rows_tokens rest
  end.

End Statements.

(** A small instance of what [index] imports, on which the handler runs:
    the literal codec is the one of [MatrixUtils], there is no media
    decoder, and the picture of a matrix is the name of its color scale. *)
Module Instance.
Import Py.

Definition message (e : MatrixUtils.error) : string :=
  match e with
  | MatrixUtils.DecodeError msg => msg
  | MatrixUtils.ParseError msg => msg
  | MatrixUtils.RangeError msg => msg
  | MatrixUtils.RenderError msg => msg
  | MatrixUtils.Crash msg => msg
  end.

Definition format_matrix_as_sage (m : MatrixUtils.Matrix) (variable_name : string)
    : result string :=
  Ok (MatrixUtils.format_matrix_as_sage m variable_name).

Definition parse_matrix_literal (text : string) : result MatrixUtils.Matrix :=
  match MatrixUtils.parse_matrix_literal text with
  | MatrixUtils.Done m => Ok m
  | MatrixUtils.Failed e => Raise (ValueError (message e))
  end.

Definition image_to_matrix (stream : App.bytes) (size : Z * Z) (rescale : bool)
    : result MatrixUtils.Matrix :=
  Raise (Exception_ "cannot identify image file").

Definition video_to_matrices (file : App.FileStorage) (size : Z * Z)
    (rescale : bool) (frame_skip max_frames : Z)
    : result (list MatrixUtils.Matrix) :=
  Raise (Exception_ "cannot open video").

Definition matrix_to_plot_png (m : MatrixUtils.Matrix) (cmap : string)
    (vmin vmax : option float) (title : option string) : result App.bytes :=
  Ok cmap.

Definition b64encode (data : App.bytes) : string := data.

Definition index : App.Request -> result App.Context :=
  App.index MatrixUtils.Matrix format_matrix_as_sage image_to_matrix
    matrix_to_plot_png parse_matrix_literal video_to_matrices b64encode.

(** A plot request for the matrix [[1, 2], [3, 4]] under a color scale. *)
Definition plot_request (cmap : string) : App.Request := {|
  App.method := "POST";
  App.form := [("plot_cmap", cmap); ("mode", "plot");
               ("matrix_text", "M = [[1, 2], [3, 4]]")];
  App.files := []
|}.

(** Raw media, for the samplers: an image is one row of 8-bit samples, one
    per byte (no byte, no image), a video is one frame of a single sample
    per byte, and a grid is already at its target size. *)
Definition Image : Type := MatrixUtils.Grid.

Fixpoint samples (stream : App.bytes) : list Z :=
  match stream with
  | EmptyString => []
  | String c r => Z.of_N (code c) :: samples r
  end.

Definition decode_image (stream : App.bytes) : option Image :=
  match stream with
  | EmptyString => None
  | String _ _ => Some [samples stream]
  end.

Definition grayscale (image : Image) : MatrixUtils.Grid := image.

Definition resize (g : MatrixUtils.Grid) (size : Z * Z) : MatrixUtils.Grid := g.

Definition open_video (stream : App.bytes) : option (list Image) :=
  Some (map (fun v => [[v]]) (samples stream)).

(** A picture that is the name of the resolved color scale. *)
Definition encode_png (m : MatrixUtils.Matrix) (scale : string)
    (lo hi : MatrixUtils.number) (title : option string) : App.bytes :=
  scale.

End Instance.

(** What a response shows: the number of results and errors it carries. *)
Module Observations.
Import Py App.

Definition is_set {A : Type} (o : option A) : nat :=
  match o with
  | Some _ => 1%nat
  | None => 0%nat
  end.

Definition results_set (context : Context) : nat :=
  (is_set (image_output context) + is_set (image_error context)
   + is_set (video_outputs context) + is_set (video_error context)
   + is_set (plot_result context) + is_set (plot_error context))%nat.

(** The mode that [index] reads from a form. *)
Definition request_mode (form : MultiDict string) : string :=
  get_default form "mode" "image".

(** A title as [index] hands it to the renderer: absent, or not empty and
    without whitespace around it. *)
Definition title_normal (title : option string) : bool :=
  match title with
  | None => true
  | Some t => negb (is_empty t) && String.eqb (strip t) t
  end.

(** The five fields of a plot form, as a page that shows the form again
    sends them back. *)
Definition fields_of (plot_form : PlotForm) : MultiDict string :=
  [ ("matrix_text", matrix_text plot_form);
    ("plot_title", plot_title plot_form);
    ("plot_vmin", plot_vmin plot_form);
    ("plot_vmax", plot_vmax plot_form);
    ("plot_cmap", plot_cmap plot_form) ].

End Observations.

(** A second instance of what [index] imports, with samplers that work:
    those of [MatrixUtils] over the raw media of [Instance]. *)
Module Studio.
Import Py.

Definition lift {A : Type} (o : MatrixUtils.outcome A) : result A :=
  match o with
  | MatrixUtils.Done a => Ok a
  | MatrixUtils.Failed (MatrixUtils.ParseError msg) => Raise (ValueError msg)
  | MatrixUtils.Failed e => Raise (Exception_ (Instance.message e))
  end.

Definition image_to_matrix (stream : App.bytes) (size : Z * Z) (rescale : bool)
    : result MatrixUtils.Matrix :=
  lift (MatrixUtils.image_to_matrix Instance.Image Instance.decode_image
          Instance.grayscale Instance.resize stream size rescale).

Definition video_to_matrices (file : App.FileStorage) (size : Z * Z)
    (rescale : bool) (frame_skip max_frames : Z)
    : result (list MatrixUtils.Matrix) :=
  lift (MatrixUtils.video_to_matrices Instance.Image Instance.grayscale
          Instance.resize Instance.open_video (App.stream file) size rescale
          frame_skip max_frames).

(** A formatter that fails on one variable name, and a parser that fails
    outside [ValueError]. *)
Definition format_failing_on (bad : string) (m : MatrixUtils.Matrix)
    (variable_name : string) : result string :=
  if String.eqb variable_name bad then Raise (Exception_ "cannot format")
  else Instance.format_matrix_as_sage m variable_name.


Definition index : App.Request -> result App.Context :=
  App.index MatrixUtils.Matrix Instance.format_matrix_as_sage image_to_matrix
    Instance.matrix_to_plot_png Instance.parse_matrix_literal video_to_matrices
    Instance.b64encode.

Definition upload (name : string) (data : App.bytes) : App.FileStorage := {|
  App.filename := Some name;
  App.stream := data
|}.

(** A video request for the raw video [data], and an image request. *)
Definition video_request (data : App.bytes) (fields : App.MultiDict string)
    : App.Request := {|
  App.method := "POST";
  App.form := ("mode", "video") :: fields;
  App.files := [("video", upload "clip.raw" data)]
|}.

Definition image_request (data : App.bytes) : App.Request := {|
  App.method := "POST";
  App.form := [("mode", "image")];
  App.files := [("image", upload "still.raw" data)]
|}.

(** A plot request with the five fields of the form. *)
Definition plot_request (text title vmin vmax cmap : string) : App.Request := {|
  App.method := "POST";
  App.form := [("mode", "plot"); ("matrix_text", text); ("plot_title", title);
               ("plot_vmin", vmin); ("plot_vmax", vmax); ("plot_cmap", cmap)];
  App.files := []
|}.


Definition index_with_failing_formatter : App.Request -> result App.Context :=
  App.index MatrixUtils.Matrix (format_failing_on "M_002") image_to_matrix
    Instance.matrix_to_plot_png Instance.parse_matrix_literal video_to_matrices
    Instance.b64encode.

(** A renderer that refuses a color scale outside the five and a title
    that is empty or padded, and a sampler that refuses a policy out of
    bounds. *)
Definition strict_renderer (m : MatrixUtils.Matrix) (cmap : string)
    (vmin vmax : option float) (title : option string) : result App.bytes :=
  if App.member cmap App.valid_cmap_values && Observations.title_normal title
  then Instance.matrix_to_plot_png m cmap vmin vmax title
  else Raise (Exception_ "unexpected argument").

Definition strict_sampler (file : App.FileStorage) (size : Z * Z)
    (rescale : bool) (frame_skip max_frames : Z)
    : result (list MatrixUtils.Matrix) :=
  if (1 <=? frame_skip) && (1 <=? max_frames) && (max_frames <=? 25)
  then video_to_matrices file size rescale frame_skip max_frames
  else Raise (Exception_ "unexpected argument").

End Studio.

(* ===================================================================== *)
(** * Properties of the builtins                                          *)
(* ===================================================================== *)

Section StripFacts.
Import Py.

Lemma is_empty_true (s : string) : is_empty s = true <-> s = EmptyString.
Proof. destruct s; simpl; split; congruence. Qed.

Lemma is_empty_false (s : string) : is_empty s = false <-> s <> EmptyString.
Proof. destruct s; simpl; split; congruence. Qed.

Variable space : ascii -> bool.

Lemma lstrip_blank (s : string) :
  lstrip_with space s = EmptyString <-> all_chars space s = true.
Proof.
  induction s as [|c r IH]; simpl.
  - tauto.
  - destruct (space c); simpl.
    + exact IH.
    + split; discriminate.
Qed.

(** What [lstrip_with] leaves is empty or starts with a character that is
    kept. *)
Lemma lstrip_head (s : string) (c : ascii) (r : string) :
  lstrip_with space s = String c r -> space c = false.
Proof.
  induction s as [|d t IH]; simpl.
  - discriminate.
  - destruct (space d) eqn:E.
    + exact IH.
    + intros H. injection H as -> _. exact E.
Qed.

Lemma rstrip_head (c : ascii) (r : string) :
  space c = false ->
  rstrip_with space (String c r) = String c (rstrip_with space r).
Proof. intros H. simpl. rewrite H. reflexivity. Qed.

Lemma rstrip_closing (s : string) (c : ascii) :
  space c = false ->
  rstrip_with space (s ++ String c EmptyString) = s ++ String c EmptyString.
Proof.
  intros Hc. induction s as [|d r IH].
  - simpl. rewrite Hc. reflexivity.
  - change (String d r ++ String c EmptyString)
      with (String d (r ++ String c EmptyString)).
    cbn [rstrip_with]. rewrite IH.
    destruct r; simpl; rewrite andb_false_r; reflexivity.
Qed.

End StripFacts.

(** [strip] gives the empty string on whitespace, and only there. *)
Lemma strip_blank (s : string) :
  Py.strip s = EmptyString <-> Py.all_chars Py.isspace s = true.
Proof.
  unfold Py.strip. rewrite <- (lstrip_blank Py.isspace).
  destruct (Py.lstrip_with Py.isspace s) as [|c r] eqn:E.
  - simpl. tauto.
  - rewrite (rstrip_head Py.isspace c r (lstrip_head Py.isspace s c r E)).
    split; discriminate.
Qed.

(** ** The builtins on a few texts *)

Example int_of_str_accepts :
  Py.int_of_str " -1_000 " = Some (-1000)
  /\ Py.int_of_str "+007" = Some 7
  /\ Py.int_of_str (String (ascii_of_N 160) "12") = Some 12.
Proof. repeat split. Qed.

Example int_of_str_rejects :
  Py.int_of_str EmptyString = None
  /\ Py.int_of_str "1__0" = None
  /\ Py.int_of_str "_1" = None
  /\ Py.int_of_str "1_" = None
  /\ Py.int_of_str "- 1" = None
  /\ Py.int_of_str "3.5" = None
  /\ Py.int_of_str "1e3" = None.
Proof. repeat split. Qed.

Example float_of_str_accepts :
  Py.float_of_str "1_0.5e-3" = Some (Py.FDec false 105 (-4))
  /\ Py.float_of_str " 255 " = Some (Py.FDec false 255 0)
  /\ Py.float_of_str ".5" = Some (Py.FDec false 5 (-1))
  /\ Py.float_of_str "5." = Some (Py.FDec false 5 0)
  /\ Py.float_of_str "-Infinity" = Some (Py.FInf true)
  /\ Py.float_of_str "nAn" = Some Py.FNan.
Proof. repeat split. Qed.

Example float_of_str_rejects :
  Py.float_of_str "." = None
  /\ Py.float_of_str "1e" = None
  /\ Py.float_of_str "1._5" = None
  /\ Py.float_of_str "0x10" = None
  /\ Py.float_of_str "ten" = None.
Proof. repeat split. Qed.

(** The separator FS is whitespace for [str.strip] and not for [float]:
    the text FS 5 is not a number, the field FS 5 is the number 5. *)
Example separators_are_stripped_first :
  Py.float_of_str (String (ascii_of_N 28) "5") = None
  /\ Py.strip (String (ascii_of_N 28) "5") = "5"
  /\ App._parse_optional_float (Some (String (ascii_of_N 28) "5")) "vmin"
     = Py.Ok (Some (Py.FDec false 5 0)).
Proof. repeat split. Qed.

Example safe_int_runs :
  App._safe_int (Some "300") 10 1 (Some 25) = 25
  /\ App._safe_int (Some "0") 1 1 None = 1
  /\ App._safe_int (Some "7") 10 1 (Some 25) = 7
  /\ App._safe_int (Some "3.5") 10 1 (Some 25) = 10
  /\ App._safe_int None 10 1 (Some 25) = 10.
Proof. repeat split. Qed.

Example format_03d_runs :
  App.format_03d 7 = "007" /\ App.format_03d 25 = "025"
  /\ App.format_03d 1234 = "1234".
Proof. repeat split. Qed.

(* ===================================================================== *)
(** * Theorems about [app.py]                                             *)
(* ===================================================================== *)

Section SafeInt.
Import Py App Statements.

Lemma safe_int_clamp raw_value default min_value max_value :
  _safe_int raw_value default min_value max_value
  = clamp min_value max_value (parsed_or raw_value default).
Proof.
  unfold _safe_int, clamp, parsed_or.
  destruct raw_value as [s|]; [destruct (int_of_str s)|]; reflexivity.
Qed.

Lemma parsed_or_default raw_value default :
  raw_value = None \/ (exists s, raw_value = Some s /\ int_of_str s = None) ->
  parsed_or raw_value default = default.
Proof.
  intros [-> | [s [-> H]]]; unfold parsed_or; [|rewrite H]; reflexivity.
Qed.

(** C8. [_safe_int] returns on every input, whatever the raw string, and
    with [min_value <= max_value] its result is at least [min_value] and,
    when a [max_value] is given, at most [max_value]; a raw value that is
    [None] or that [int] rejects gives the default, clamped. *)
Theorem safe_int_total_and_bounded
    (raw_value : option string) (default min_value : Z) (max_value : option Z) :
  (forall m, max_value = Some m -> min_value <= m) ->
  exists r,
    _safe_int raw_value default min_value max_value = r
    /\ min_value <= r
    /\ (forall m, max_value = Some m -> r <= m)
    /\ (raw_value = None \/ (exists s, raw_value = Some s /\ int_of_str s = None) ->
        r = clamp min_value max_value default).
Proof.
  intros Hle. eexists. split; [reflexivity|].
  rewrite safe_int_clamp. unfold clamp.
  destruct max_value as [m|].
  - specialize (Hle m eq_refl). repeat split.
    + lia.
    + intros m' [= <-]. lia.
    + intros H. rewrite (parsed_or_default _ _ H). reflexivity.
  - repeat split.
    + lia.
    + discriminate.
    + intros H. rewrite (parsed_or_default _ _ H). reflexivity.
Qed.

Lemma safe_int_total_and_bounded_witness :
  exists r,
    _safe_int (Some "many") 10 1 (Some 25) = r
    /\ 1 <= r
    /\ (forall m, Some 25 = Some m -> r <= m)
    /\ (Some "many" = None \/ (exists s, Some "many" = Some s /\ int_of_str s = None) ->
        r = clamp 1 (Some 25) 10).
Proof.
  apply (safe_int_total_and_bounded (Some "many") 10 1 (Some 25)).
  intros m H. injection H as <-. lia.
Defined.

(** C2. The frame-selection parameters of a video request are clamped, not
    rejected: whatever the two form fields hold, [frame_skip] is
    [max(1, v)] for the value [v] that [int] read, or for 1 when the field
    is absent or not an integer, and [max_frames] is the value read, or 10,
    brought into the range from 1 to 25. *)
Theorem frame_selection_clamped (form : MultiDict string) :
  request_frame_skip form = Z.max 1 (parsed_or (get form "frame_skip") 1)
  /\ request_max_frames form
     = Z.min 25 (Z.max 1 (parsed_or (get form "max_frames") 10))
  /\ 1 <= request_frame_skip form
  /\ 1 <= request_max_frames form <= 25
  /\ (parsed_or (get form "frame_skip") 1 < 1 -> request_frame_skip form = 1)
  /\ (parsed_or (get form "max_frames") 10 < 1 -> request_max_frames form = 1)
  /\ (25 < parsed_or (get form "max_frames") 10 -> request_max_frames form = 25)
  /\ (get form "frame_skip" = None
      \/ (exists s, get form "frame_skip" = Some s /\ int_of_str s = None) ->
      request_frame_skip form = 1)
  /\ (get form "max_frames" = None
      \/ (exists s, get form "max_frames" = Some s /\ int_of_str s = None) ->
      request_max_frames form = 10).
Proof.
  unfold request_frame_skip, request_max_frames.
  rewrite !safe_int_clamp. unfold clamp, MAX_FRAMES_DISPLAY.
  repeat split; try lia;
    intros H; rewrite (parsed_or_default _ _ H); reflexivity.
Qed.

Lemma frame_selection_clamped_witness :
  request_frame_skip [("frame_skip", "-4"); ("max_frames", "1_000")] = 1
  /\ request_max_frames [("frame_skip", "-4"); ("max_frames", "1_000")] = 25
  /\ request_frame_skip [("max_frames", "a dozen")] = 1
  /\ request_max_frames [("max_frames", "a dozen")] = 10.
Proof.
  pose proof (frame_selection_clamped
                [("frame_skip", "-4"); ("max_frames", "1_000")])
    as (_ & _ & _ & _ & Hskip & _ & Hmax & _ & _).
  pose proof (frame_selection_clamped [("max_frames", "a dozen")])
    as (_ & _ & _ & _ & _ & _ & _ & Hskip0 & Hmax0).
  split; [|split; [|split]].
  - apply Hskip. vm_compute. reflexivity.
  - apply Hmax. vm_compute. reflexivity.
  - apply Hskip0. left. reflexivity.
  - apply Hmax0. right. exists "a dozen". split; reflexivity.
Defined.

End SafeInt.

Section OptionalFloat.
Import Py App.

Lemma parse_optional_float_blank (s field_name : string) :
  all_chars isspace s = true ->
  _parse_optional_float (Some s) field_name = Ok None.
Proof.
  intros H. apply strip_blank in H.
  unfold _parse_optional_float. rewrite H. reflexivity.
Qed.

Lemma parse_optional_float_malformed (s field_name : string) :
  strip s <> EmptyString ->
  float_of_str (strip s) = None ->
  _parse_optional_float (Some s) field_name
  = Raise (ValueError (field_name ++ " must be a number.")).
Proof.
  intros Hs Hf. unfold _parse_optional_float.
  apply is_empty_false in Hs. rewrite Hs, Hf. reflexivity.
Qed.

(** C3. A vmin/vmax field that is absent, or empty once stripped, parses
    to [None]; one whose stripped text is not empty and is not a number for
    [float] raises an error whose message is the field name followed by
    " must be a number.". *)
Theorem parse_optional_float_absent_or_malformed
    (raw_value : option string) (field_name : string) :
  (raw_value = None
   \/ (exists s, raw_value = Some s /\ strip s = EmptyString) ->
   _parse_optional_float raw_value field_name = Ok None)
  /\ (forall s,
        raw_value = Some s ->
        strip s <> EmptyString ->
        float_of_str (strip s) = None ->
        _parse_optional_float raw_value field_name
        = Raise (ValueError (field_name ++ " must be a number."))).
Proof.
  split.
  - intros [-> | [s [-> H]]].
    + reflexivity.
    + apply parse_optional_float_blank, strip_blank, H.
  - intros s -> Hs Hf.
    apply parse_optional_float_malformed; assumption.
Qed.

Lemma parse_optional_float_absent_or_malformed_witness :
  _parse_optional_float (Some "  ") "vmax" = Ok None
  /\ _parse_optional_float (Some " ten ") "vmin"
     = Raise (ValueError "vmin must be a number.").
Proof.
  split.
  - apply (proj1 (parse_optional_float_absent_or_malformed (Some "  ") "vmax")).
    right. exists "  ". split; reflexivity.
  - apply (proj2 (parse_optional_float_absent_or_malformed (Some " ten ") "vmin")
             " ten " eq_refl).
    + vm_compute. discriminate.
    + reflexivity.
Defined.

(** C9. On a string made of whitespace only, of any length,
    [_parse_optional_float] returns [None] and raises nothing: the field
    counts as absent. *)
Theorem parse_optional_float_whitespace_only (s field_name : string) :
  all_chars isspace s = true ->
  _parse_optional_float (Some s) field_name = Ok None
  /\ _parse_optional_float (Some s) field_name
     = _parse_optional_float None field_name.
Proof.
  intros H. rewrite (parse_optional_float_blank s field_name H).
  split; reflexivity.
Qed.

Lemma parse_optional_float_whitespace_only_witness :
  _parse_optional_float (Some (String "009" (String " " (String "010" EmptyString)))) "vmin"
  = Ok None.
Proof.
  apply (parse_optional_float_whitespace_only
           (String "009" (String " " (String "010" EmptyString))) "vmin").
  reflexivity.
Defined.

End OptionalFloat.

Section ColorScale.
Import Py App.

Lemma member_In (x : string) (xs : list string) :
  member x xs = true <-> In x xs.
Proof.
  unfold member. rewrite existsb_exists. split.
  - intros [y [Hy E]]. apply String.eqb_eq in E. subst. exact Hy.
  - intros H. exists x. split; [exact H | apply String.eqb_refl].
Qed.

Lemma member_not_In (x : string) (xs : list string) :
  member x xs = false <-> ~ In x xs.
Proof.
  rewrite <- member_In. destruct (member x xs); split; congruence.
Qed.

(** Replacing the value of the first entry of a multi-dict does not change
    what the other keys give. *)
Lemma get_other_key {V : Type} (k : string) (v1 v2 : V) (rest : MultiDict V)
    (key : string) :
  key <> k -> get ((k, v1) :: rest) key = get ((k, v2) :: rest) key.
Proof.
  intros Hkey.
  change (get ((k, v1) :: rest) key)
    with (if String.eqb k key then Some v1 else get rest key).
  change (get ((k, v2) :: rest) key)
    with (if String.eqb k key then Some v2 else get rest key).
  destruct (String.eqb_spec k key) as [E|_]; [|reflexivity].
  symmetry in E. contradiction.
Qed.

Lemma request_cmap_valid (form : MultiDict string) :
  In (request_cmap form) valid_cmap_values.
Proof.
  unfold request_cmap.
  destruct (get form "plot_cmap") as [[|c r]|].
  - simpl. auto.
  - destruct (member (String c r) valid_cmap_values) eqn:E.
    + simpl negb. cbv iota. apply member_In, E.
    + simpl. auto.
  - simpl. auto.
Qed.

Lemma request_cmap_fallback (form : MultiDict string) (name : string) :
  get form "plot_cmap" = Some name ->
  ~ In name valid_cmap_values ->
  request_cmap form = "gray".
Proof.
  intros Hget Hname. apply member_not_In in Hname.
  unfold request_cmap. rewrite Hget.
  destruct name as [|c r]; [reflexivity|].
  rewrite Hname. reflexivity.
Qed.

Lemma request_cmap_kept (form : MultiDict string) (name : string) :
  get form "plot_cmap" = Some name ->
  In name valid_cmap_values ->
  request_cmap form = name.
Proof.
  intros Hget Hname. unfold request_cmap. rewrite Hget.
  destruct name as [|c r].
  - simpl in Hname. repeat destruct Hname as [Hname|Hname]; discriminate || contradiction.
  - apply member_In in Hname. rewrite Hname. reflexivity.
Qed.

Lemma request_cmap_default (form : MultiDict string) :
  get form "plot_cmap" = None \/ get form "plot_cmap" = Some EmptyString ->
  request_cmap form = "gray".
Proof.
  intros [H|H]; unfold request_cmap; rewrite H; reflexivity.
Qed.

(** The five keys of [plot_form] are read from the request one by one, so
    two forms that differ under "plot_cmap" only, by a name outside the set
    in one and by "gray" in the other, give the same [plot_form]. *)
Lemma request_plot_form_fallback (form1 form2 : MultiDict string) (name : string) :
  (forall key, key <> "plot_cmap" -> get form1 key = get form2 key) ->
  get form1 "plot_cmap" = Some name ->
  ~ In name valid_cmap_values ->
  get form2 "plot_cmap" = Some "gray" ->
  request_plot_form form1 = request_plot_form form2.
Proof.
  intros Hsame H1 Hname H2.
  unfold request_plot_form, get_default.
  rewrite (request_cmap_fallback form1 name H1 Hname).
  rewrite (request_cmap_kept form2 "gray" H2) by (simpl; auto).
  rewrite !Hsame by discriminate. reflexivity.
Qed.

Variable Matrix : Type.
Variable format_matrix_as_sage : Matrix -> string -> result string.
Variable image_to_matrix : bytes -> Z * Z -> bool -> result Matrix.
Variable matrix_to_plot_png :
  Matrix -> string -> option float -> option float -> option string ->
  result bytes.
Variable parse_matrix_literal : string -> result Matrix.
Variable video_to_matrices :
  FileStorage -> Z * Z -> bool -> Z -> Z -> result (list Matrix).
Variable b64encode : bytes -> string.

(** C4. A plot request whose color-scale name is outside the set of five
    is answered exactly as the same request with the name "gray": the two
    responses of [index] are equal, whatever the matrix text, the bounds,
    the title and the renderer. *)
Theorem unknown_cmap_renders_as_gray (request1 request2 : Request) (name : string) :
  method request1 = method request2 ->
  files request1 = files request2 ->
  (forall key, key <> "plot_cmap" ->
     get (form request1) key = get (form request2) key) ->
  get (form request1) "plot_cmap" = Some name ->
  ~ In name valid_cmap_values ->
  get (form request2) "plot_cmap" = Some "gray" ->
  index Matrix format_matrix_as_sage image_to_matrix matrix_to_plot_png
    parse_matrix_literal video_to_matrices b64encode request1
  = index Matrix format_matrix_as_sage image_to_matrix matrix_to_plot_png
      parse_matrix_literal video_to_matrices b64encode request2.
Proof.
  intros Hmethod Hfiles Hsame H1 Hname H2.
  pose proof (request_plot_form_fallback _ _ name Hsame H1 Hname H2) as Hform.
  unfold index. rewrite Hmethod.
  destruct (String.eqb (method request2) "POST"); [|reflexivity].
  unfold get_default. rewrite (Hsame "mode") by discriminate.
  destruct (get (form request2) "mode") as [mode|].
  - destruct (String.eqb mode "image").
    + unfold index_image. rewrite Hfiles. reflexivity.
    + destruct (String.eqb mode "video").
      * unfold index_video, request_frame_skip, request_max_frames.
        rewrite Hfiles, !Hsame by discriminate. reflexivity.
      * destruct (String.eqb mode "plot"); [|reflexivity].
        unfold index_plot. rewrite Hform. reflexivity.
  - simpl. unfold index_image. rewrite Hfiles. reflexivity.
Qed.

(** C10. The color-scale name that [index] hands to [matrix_to_plot_png]
    is the "plot_cmap" entry of [plot_form], and that entry is always one of
    gray, viridis, plasma, magma, inferno: a missing or empty field gives
    "gray", a name outside the set gives "gray", a name of the set is kept;
    so the response does not depend on what the renderer does outside the
    set. *)
Theorem plot_cmap_always_valid (request : Request) :
  valid_cmap_values = ["gray"; "viridis"; "plasma"; "magma"; "inferno"]
  /\ In (plot_cmap (request_plot_form (form request))) valid_cmap_values
  /\ (get (form request) "plot_cmap" = None
      \/ get (form request) "plot_cmap" = Some EmptyString ->
      plot_cmap (request_plot_form (form request)) = "gray")
  /\ (forall name,
        get (form request) "plot_cmap" = Some name ->
        ~ In name valid_cmap_values ->
        plot_cmap (request_plot_form (form request)) = "gray")
  /\ (forall name,
        get (form request) "plot_cmap" = Some name ->
        In name valid_cmap_values ->
        plot_cmap (request_plot_form (form request)) = name)
  /\ (forall other_renderer,
        (forall m cmap vmin vmax title,
           In cmap valid_cmap_values ->
           other_renderer m cmap vmin vmax title
           = matrix_to_plot_png m cmap vmin vmax title) ->
        index Matrix format_matrix_as_sage image_to_matrix other_renderer
          parse_matrix_literal video_to_matrices b64encode request
        = index Matrix format_matrix_as_sage image_to_matrix matrix_to_plot_png
            parse_matrix_literal video_to_matrices b64encode request).
Proof.
  split; [reflexivity|].
  split; [apply request_cmap_valid|].
  split; [apply request_cmap_default|].
  split; [apply request_cmap_fallback|].
  split; [apply request_cmap_kept|].
  intros other Hagree. unfold index.
  destruct (String.eqb (method request) "POST"); [|reflexivity].
  destruct (String.eqb (get_default (form request) "mode" "image") "image");
    [reflexivity|].
  destruct (String.eqb (get_default (form request) "mode" "image") "video");
    [reflexivity|].
  destruct (String.eqb (get_default (form request) "mode" "image") "plot");
    [|reflexivity].
  unfold index_plot.
  destruct (is_empty (strip (matrix_text (request_plot_form (form request)))));
    [reflexivity|].
  destruct (parse_matrix_literal _) as [m|exc]; [|reflexivity].
  destruct (bind _ _) as [[vmin_value vmax_value]|exc]; [|reflexivity].
  rewrite Hagree by apply request_cmap_valid.
  reflexivity.
Qed.

(** The message of [_parse_optional_float] reaches the page: on a plot
    request whose matrix text parses, a lower bound that is not a number
    makes [plot_error] the text "vmin must be a number.". *)
Lemma index_reports_vmin_error (request : Request) (m : Matrix) :
  method request = "POST" ->
  get (form request) "mode" = Some "plot" ->
  strip (matrix_text (request_plot_form (form request))) <> EmptyString ->
  parse_matrix_literal (matrix_text (request_plot_form (form request))) = Ok m ->
  strip (plot_vmin (request_plot_form (form request))) <> EmptyString ->
  float_of_str (strip (plot_vmin (request_plot_form (form request)))) = None ->
  index Matrix format_matrix_as_sage image_to_matrix matrix_to_plot_png
    parse_matrix_literal video_to_matrices b64encode request
  = Ok (plot_context None (Some "vmin must be a number.")
          (request_plot_form (form request))).
Proof.
  intros Hmethod Hmode Htext Hparse Hvmin Hfloat.
  unfold index, get_default. rewrite Hmethod, Hmode. simpl.
  unfold index_plot.
  apply is_empty_false in Htext. rewrite Htext, Hparse.
  rewrite (parse_optional_float_malformed _ "vmin" Hvmin Hfloat).
  reflexivity.
Qed.

End ColorScale.

Lemma unknown_cmap_renders_as_gray_witness :
  Instance.index (Instance.plot_request "jet")
  = Instance.index (Instance.plot_request "gray").
Proof.
  apply (unknown_cmap_renders_as_gray MatrixUtils.Matrix
           Instance.format_matrix_as_sage Instance.image_to_matrix
           Instance.matrix_to_plot_png Instance.parse_matrix_literal
           Instance.video_to_matrices Instance.b64encode
           (Instance.plot_request "jet") (Instance.plot_request "gray") "jet").
  - reflexivity.
  - reflexivity.
  - intros key Hkey. apply get_other_key, Hkey.
  - reflexivity.
  - simpl. intros H.
    repeat destruct H as [H|H]; discriminate || contradiction.
  - reflexivity.
Defined.

Lemma plot_cmap_always_valid_witness :
  App.plot_cmap (App.request_plot_form (App.form (Instance.plot_request "jet")))
  = "gray"
  /\ App.plot_cmap
       (App.request_plot_form (App.form (Instance.plot_request EmptyString)))
     = "gray"
  /\ App.plot_cmap
       (App.request_plot_form (App.form (Instance.plot_request "plasma")))
     = "plasma".
Proof.
  split; [|split].
  - pose proof (plot_cmap_always_valid MatrixUtils.Matrix
                  Instance.format_matrix_as_sage Instance.image_to_matrix
                  Instance.matrix_to_plot_png Instance.parse_matrix_literal
                  Instance.video_to_matrices Instance.b64encode
                  (Instance.plot_request "jet"))
      as (_ & _ & _ & Hout & _).
    apply (Hout "jet").
    + reflexivity.
    + simpl. intros H.
      repeat destruct H as [H|H]; discriminate || contradiction.
  - pose proof (plot_cmap_always_valid MatrixUtils.Matrix
                  Instance.format_matrix_as_sage Instance.image_to_matrix
                  Instance.matrix_to_plot_png Instance.parse_matrix_literal
                  Instance.video_to_matrices Instance.b64encode
                  (Instance.plot_request EmptyString))
      as (_ & _ & Hempty & _).
    apply Hempty. right. reflexivity.
  - pose proof (plot_cmap_always_valid MatrixUtils.Matrix
                  Instance.format_matrix_as_sage Instance.image_to_matrix
                  Instance.matrix_to_plot_png Instance.parse_matrix_literal
                  Instance.video_to_matrices Instance.b64encode
                  (Instance.plot_request "plasma"))
      as (_ & _ & _ & _ & Hin & _).
    apply (Hin "plasma").
    + reflexivity.
    + simpl. auto.
Defined.

(* ===================================================================== *)
(** * Theorems about the samplers and the renderer                        *)
(* ===================================================================== *)

Section SamplerTheorems.
Import Py MatrixUtils Statements.

Lemma traverse_total {A B : Type} (f : A -> outcome B) (xs : list A) :
  (forall x, In x xs -> exists y, f x = Done y) ->
  exists ys, traverse f xs = Done ys /\ List.length ys = List.length xs.
Proof.
  induction xs as [|x rest IH]; intros H.
  - exists []. split; reflexivity.
  - destruct (H x (or_introl eq_refl)) as [y Hy].
    destruct IH as [ys [Hys Hlen]].
    { intros z Hz. apply H. right. exact Hz. }
    exists (y :: ys). simpl. rewrite Hy. simpl. rewrite Hys. simpl.
    split; [reflexivity | congruence].
Qed.

Lemma linear_rescale_defined (lo hi v : Z) :
  lo <> hi -> exists r, linear_rescale lo hi v = Done r.
Proof.
  intros H. unfold linear_rescale.
  destruct (Z.eqb_spec (hi - lo) 0) as [E|_]; [lia|].
  eexists. reflexivity.
Qed.

(** The rescale step makes its division only when the range is not zero:
    it returns a grid on every input. *)
Lemma rescale_grid_total (g : Grid) : exists g', rescale_grid g = Done g'.
Proof.
  unfold rescale_grid.
  destruct (minimum (List.concat g)) as [lo|]; [|eexists; reflexivity].
  destruct (maximum (List.concat g)) as [hi|]; [|eexists; reflexivity].
  destruct (Z.eqb_spec lo hi) as [_|Hne]; [eexists; reflexivity|].
  destruct (traverse_total (traverse (linear_rescale lo hi)) g) as [g' [Hg' _]].
  - intros row _.
    destruct (traverse_total (linear_rescale lo hi) row) as [row' [Hrow' _]].
    + intros v _. apply linear_rescale_defined, Hne.
    + exists row'. exact Hrow'.
  - exists g'. exact Hg'.
Qed.

Lemma rescale_grid_uniform (g : Grid) (v : Z) :
  minimum (List.concat g) = Some v ->
  maximum (List.concat g) = Some v ->
  rescale_grid g = Done (map (map (fun _ => 0)) g).
Proof.
  intros Hmin Hmax. unfold rescale_grid.
  rewrite Hmin, Hmax, Z.eqb_refl. reflexivity.
Qed.

Variable Image : Type.
Variable decode_image : App.bytes -> option Image.
Variable grayscale : Image -> Grid.
Variable resize : Grid -> Z * Z -> Grid.
Variable open_video : App.bytes -> option (list Image).

Lemma sample_image_total (image : Image) (size : Z * Z) (rescale : bool) :
  exists m, sample_image Image grayscale resize image size rescale = Done m.
Proof.
  unfold sample_image. destruct rescale.
  - destruct (rescale_grid_total (resize (grayscale image) size)) as [g' Hg'].
    rewrite Hg'. eexists. reflexivity.
  - eexists. reflexivity.
Qed.

(** C7. spec-modelled.  On a decodable image whose resampled grid has one
    intensity only (its minimum equals its maximum), the Image Sampler with
    rescale on raises nothing and returns the matrix of the same shape
    whose entries all are the single value 0. *)
Theorem uniform_image_rescales_to_constant
    (stream : App.bytes) (image : Image) (size : Z * Z) (v : Z) :
  decode_image stream = Some image ->
  minimum (List.concat (resize (grayscale image) size)) = Some v ->
  maximum (List.concat (resize (grayscale image) size)) = Some v ->
  image_to_matrix Image decode_image grayscale resize stream size true
  = Done (map (map (fun _ => of_Z 0)) (resize (grayscale image) size)).
Proof.
  intros Hdecode Hmin Hmax.
  unfold image_to_matrix, sample_image. rewrite Hdecode.
  rewrite (rescale_grid_uniform _ v Hmin Hmax). simpl.
  unfold matrix_of_grid. rewrite map_map. f_equal.
  apply map_ext. intros row. rewrite map_map. reflexivity.
Qed.

Lemma select_frames_from (frame_skip max_frames : Z) (frames : list Image) :
  forall (start : nat) (emitted : Z),
    select_frames Image frame_skip max_frames (Z.of_nat start) emitted frames
    = firstn (Z.to_nat (max_frames - emitted))
        (map snd
           (filter (fun entry => Z.of_nat (fst entry) mod frame_skip =? 0)
              (combine (seq start (List.length frames)) frames))).
Proof.
  induction frames as [|frame rest IH]; intros start emitted.
  - simpl. rewrite firstn_nil. reflexivity.
  - cbn [select_frames List.length seq combine filter fst].
    destruct (Z.leb_spec max_frames emitted) as [Hfull|Hroom].
    + replace (Z.to_nat (max_frames - emitted)) with O by lia. reflexivity.
    + replace (Z.of_nat start + 1) with (Z.of_nat (S start)) by lia.
      destruct (Z.of_nat start mod frame_skip =? 0).
      * replace (Z.to_nat (max_frames - emitted))
          with (S (Z.to_nat (max_frames - (emitted + 1)))) by lia.
        cbn [map snd firstn]. rewrite IH. reflexivity.
      * apply IH.
Qed.

(** C5. spec-modelled.  The Video Sampler returns the matrices of the
    frames whose 0-based decode index is a multiple of [frame_skip], in
    order, cut after [max_frames] of them or at the end of the stream; under
    the policy (2, 3) a stream of at least 10 frames gives exactly 3
    matrices, those of the frames 0, 2 and 4. *)
Theorem video_sampler_selects_every_nth
    (stream : App.bytes) (frames : list Image) (size : Z * Z) (rescale : bool) :
  open_video stream = Some frames ->
  (forall frame_skip max_frames,
     1 <= frame_skip ->
     video_to_matrices Image grayscale resize open_video stream size rescale
       frame_skip max_frames
     = traverse (fun frame => sample_image Image grayscale resize frame size rescale)
         (firstn (Z.to_nat max_frames) (at_multiples frame_skip frames)))
  /\ ((10 <= List.length frames)%nat ->
      exists f0 f2 f4 m0 m2 m4,
        nth_error frames 0 = Some f0
        /\ nth_error frames 2 = Some f2
        /\ nth_error frames 4 = Some f4
        /\ sample_image Image grayscale resize f0 size rescale = Done m0
        /\ sample_image Image grayscale resize f2 size rescale = Done m2
        /\ sample_image Image grayscale resize f4 size rescale = Done m4
        /\ video_to_matrices Image grayscale resize open_video stream size
             rescale 2 3
           = Done [m0; m2; m4]).
Proof.
  intros Hopen. split.
  - intros frame_skip max_frames _. unfold video_to_matrices, at_multiples.
    rewrite Hopen.
    pose proof (select_frames_from frame_skip max_frames frames 0 0) as Hsel.
    rewrite Z.sub_0_r in Hsel. simpl Z.of_nat in Hsel.
    rewrite Hsel. reflexivity.
  - intros Hlen. unfold video_to_matrices. rewrite Hopen.
    destruct frames as [|f0 [|f1 [|f2 [|f3 [|f4 rest]]]]]; simpl in Hlen; try lia.
    destruct (sample_image_total f0 size rescale) as [m0 H0].
    destruct (sample_image_total f2 size rescale) as [m2 H2].
    destruct (sample_image_total f4 size rescale) as [m4 H4].
    exists f0, f2, f4, m0, m2, m4.
    repeat (split; [reflexivity || assumption|]).
    destruct rest as [|f5 rest]; simpl; rewrite H0, H2, H4; reflexivity.
Qed.

End SamplerTheorems.

Lemma uniform_image_rescales_to_constant_witness :
  MatrixUtils.image_to_matrix Instance.Image Instance.decode_image
    Instance.grayscale Instance.resize "aaa" App.TARGET_SIZE true
  = MatrixUtils.Done
      [[MatrixUtils.of_Z 0; MatrixUtils.of_Z 0; MatrixUtils.of_Z 0]].
Proof.
  apply (uniform_image_rescales_to_constant Instance.Image Instance.decode_image
           Instance.grayscale Instance.resize "aaa" [[97; 97; 97]]
           App.TARGET_SIZE 97); reflexivity.
Defined.

Lemma video_sampler_selects_every_nth_witness :
  exists f0 f2 f4 m0 m2 m4,
    nth_error (map (fun v => [[v]]) (Instance.samples "abcdefghijk")) 0 = Some f0
    /\ nth_error (map (fun v => [[v]]) (Instance.samples "abcdefghijk")) 2 = Some f2
    /\ nth_error (map (fun v => [[v]]) (Instance.samples "abcdefghijk")) 4 = Some f4
    /\ MatrixUtils.sample_image Instance.Image Instance.grayscale Instance.resize
         f0 App.TARGET_SIZE false = MatrixUtils.Done m0
    /\ MatrixUtils.sample_image Instance.Image Instance.grayscale Instance.resize
         f2 App.TARGET_SIZE false = MatrixUtils.Done m2
    /\ MatrixUtils.sample_image Instance.Image Instance.grayscale Instance.resize
         f4 App.TARGET_SIZE false = MatrixUtils.Done m4
    /\ MatrixUtils.video_to_matrices Instance.Image Instance.grayscale
         Instance.resize Instance.open_video "abcdefghijk" App.TARGET_SIZE
         false 2 3
       = MatrixUtils.Done [m0; m2; m4].
Proof.
  apply (proj2 (video_sampler_selects_every_nth Instance.Image Instance.grayscale
                  Instance.resize Instance.open_video "abcdefghijk"
                  (map (fun v => [[v]]) (Instance.samples "abcdefghijk"))
                  App.TARGET_SIZE false eq_refl)).
  simpl. lia.
Defined.

Section RendererTheorems.
Import Py MatrixUtils.

Variable encode_png :
  Matrix -> string -> number -> number -> option string -> App.bytes.

(** C6. spec-modelled.  When the resolved bounds are inverted, that is
    when the resolved vmin is greater than the resolved vmax, rendering a
    matrix that has rows and columns fails with a [RangeError]; no picture
    is made with the bounds exchanged. *)
Theorem inverted_bounds_are_rejected
    (m : Matrix) (cmap : string) (vmin vmax : option number)
    (title : option string) :
  degenerate m = false ->
  number_ltb (resolve_vmax m vmax) (resolve_vmin m vmin) = true ->
  (exists msg,
     matrix_to_plot_png encode_png m cmap vmin vmax title
     = Failed (RangeError msg))
  /\ (forall picture,
        matrix_to_plot_png encode_png m cmap vmin vmax title <> Done picture).
Proof.
  intros Hm Hbounds. unfold matrix_to_plot_png.
  rewrite Hm, Hbounds. split.
  - eexists. reflexivity.
  - intros picture. discriminate.
Qed.

(** The renderer of the specification resolves the name itself: a name
    outside the five scales gives the picture of "gray". *)
Lemma unknown_scale_renders_as_gray
    (m : Matrix) (cmap : string) (vmin vmax : option number)
    (title : option string) :
  App.member cmap COLOR_SCALES = false ->
  matrix_to_plot_png encode_png m cmap vmin vmax title
  = matrix_to_plot_png encode_png m "gray" vmin vmax title.
Proof.
  intros H. unfold matrix_to_plot_png, resolve_scale. rewrite H. reflexivity.
Qed.

End RendererTheorems.

Lemma inverted_bounds_are_rejected_witness :
  exists msg,
    MatrixUtils.matrix_to_plot_png Instance.encode_png
      [[MatrixUtils.of_Z 1; MatrixUtils.of_Z 2]; [MatrixUtils.of_Z 3; MatrixUtils.of_Z 4]]
      "gray" (Some (MatrixUtils.of_Z 10)) (Some (MatrixUtils.of_Z 5)) None
    = MatrixUtils.Failed (MatrixUtils.RangeError msg).
Proof.
  apply (proj1 (inverted_bounds_are_rejected Instance.encode_png
                  [[MatrixUtils.of_Z 1; MatrixUtils.of_Z 2];
                   [MatrixUtils.of_Z 3; MatrixUtils.of_Z 4]]
                  "gray" (Some (MatrixUtils.of_Z 10)) (Some (MatrixUtils.of_Z 5))
                  None eq_refl eq_refl)).
Defined.

(* ===================================================================== *)
(** * Theorems about the literal codec                                    *)
(* ===================================================================== *)

Section Codec.
Import Py MatrixUtils Statements.

Lemma append_assoc (s1 s2 s3 : string) : (s1 ++ s2) ++ s3 = s1 ++ (s2 ++ s3).
Proof. induction s1 as [|c r IH]; simpl; [|rewrite IH]; reflexivity. Qed.

Lemma all_chars_app (p : ascii -> bool) (s1 s2 : string) :
  all_chars p (s1 ++ s2) = all_chars p s1 && all_chars p s2.
Proof.
  induction s1 as [|c r IH]; simpl.
  - reflexivity.
  - rewrite IH, andb_assoc. reflexivity.
Qed.

Lemma all_chars_weaken (p q : ascii -> bool) (s : string) :
  (forall c, p c = true -> q c = true) ->
  all_chars p s = true -> all_chars q s = true.
Proof.
  intros Hpq. induction s as [|c r IH]; simpl.
  - reflexivity.
  - intros H. apply andb_true_iff in H as [Hc Hr].
    rewrite (Hpq c Hc), (IH Hr). reflexivity.
Qed.

(** ** Decimal digits *)

Lemma uint_digits (d : Decimal.uint) :
  all_chars isdigit (DecimalString.NilEmpty.string_of_uint d) = true.
Proof. induction d; simpl; auto. Qed.

Lemma digits_value_acc (d : Decimal.uint) :
  forall acc : positive,
    digits_value (Zpos acc) (DecimalString.NilEmpty.string_of_uint d)
    = Zpos (Pos.of_uint_acc d acc).
Proof.
  induction d; intros acc;
    cbn [DecimalString.NilEmpty.string_of_uint digits_value Pos.of_uint_acc];
    try reflexivity;
    match goal with
    | |- digits_value ?v _ = Zpos (Pos.of_uint_acc _ ?a) =>
        replace v with (Zpos a)
          by (unfold digit_value, code; cbn [N_of_ascii N_of_digits];
              rewrite ?Pos2Z.inj_add, ?Pos2Z.inj_mul; simpl Z.of_N; lia)
    end; apply IHd.
Qed.

Lemma digits_value_uint (d : Decimal.uint) :
  digits_value 0 (DecimalString.NilEmpty.string_of_uint d)
  = Z.of_N (Pos.of_uint d).
Proof.
  induction d;
    cbn [DecimalString.NilEmpty.string_of_uint digits_value Pos.of_uint];
    try reflexivity;
    try (change (10 * 0 + digit_value "0") with 0; exact IHd);
    match goal with
    | |- digits_value ?v _ = Z.of_N (Npos (Pos.of_uint_acc _ ?a)) =>
        change v with (Zpos a)
    end; apply digits_value_acc.
Qed.

Lemma is_digits_uint (d : Decimal.uint) :
  d <> Decimal.Nil ->
  is_digits (DecimalString.NilEmpty.string_of_uint d) = true.
Proof.
  intros Hd. unfold is_digits. rewrite uint_digits, andb_true_r.
  destruct d; try reflexivity. contradiction.
Qed.

(** [str] of a positive number is its digits, and reading the digits gives
    the number back. *)
Lemma str_Z_pos (p : positive) :
  str_Z (Zpos p) = DecimalString.NilEmpty.string_of_uint (Pos.to_uint p)
  /\ is_digits (str_Z (Zpos p)) = true
  /\ digits_value 0 (str_Z (Zpos p)) = Zpos p.
Proof.
  pose proof (DecimalPos.Unsigned.to_uint_nonnil p) as Hnil.
  assert (E : str_Z (Zpos p)
              = DecimalString.NilEmpty.string_of_uint (Pos.to_uint p)).
  { unfold str_Z. cbn [Z.to_int DecimalString.NilZero.string_of_int].
    unfold DecimalString.NilZero.string_of_uint.
    destruct (Pos.to_uint p); try reflexivity. contradiction. }
  rewrite E. split; [reflexivity|]. split.
  - apply is_digits_uint, Hnil.
  - rewrite digits_value_uint, DecimalPos.Unsigned.of_to. reflexivity.
Qed.

Lemma str_Z_neg (p : positive) :
  str_Z (Zneg p) = String "-" (str_Z (Zpos p)).
Proof. reflexivity. Qed.

Lemma isdigit_not_minus (c : ascii) : isdigit c = true -> Ascii.eqb c "-" = false.
Proof.
  destruct c as [[] [] [] [] [] [] [] []]; try discriminate; reflexivity.
Qed.

Lemma isdigit_not_point (c : ascii) : isdigit c = true -> Ascii.eqb c "." = false.
Proof.
  destruct c as [[] [] [] [] [] [] [] []]; try discriminate; reflexivity.
Qed.

Lemma isdigit_word_char (c : ascii) : isdigit c = true -> word_char c = true.
Proof.
  destruct c as [[] [] [] [] [] [] [] []]; try discriminate; reflexivity.
Qed.

Lemma split_at_point_digits (s : string) :
  all_chars isdigit s = true -> split_at_point s = (s, None).
Proof.
  induction s as [|c r IH]; simpl.
  - reflexivity.
  - intros H. apply andb_true_iff in H as [Hc Hr].
    rewrite (isdigit_not_point c Hc), (IH Hr). reflexivity.
Qed.

Lemma number_of_digits (ds : string) :
  is_digits ds = true ->
  number_of_token ds = Some (of_Z (digits_value 0 ds))
  /\ number_of_token (String "-" ds) = Some (of_Z (- digits_value 0 ds)).
Proof.
  intros H. pose proof H as H'. unfold is_digits in H'.
  apply andb_true_iff in H' as [Hne Hds].
  split.
  - unfold number_of_token.
    destruct ds as [|c r]; [discriminate|].
    simpl in Hds. apply andb_true_iff in Hds as [Hc Hr].
    unfold split_minus. rewrite (isdigit_not_minus c Hc).
    rewrite split_at_point_digits by (simpl; rewrite Hc, Hr; reflexivity).
    rewrite H. reflexivity.
  - unfold number_of_token.
    change (split_minus (String "-" ds)) with (true, ds). cbv beta iota.
    rewrite (split_at_point_digits ds Hds), H. reflexivity.
Qed.

(** Reading the text of an integer entry gives the entry back. *)
Lemma number_of_token_str_Z (z : Z) : number_of_token (str_Z z) = Some (of_Z z).
Proof.
  destruct z as [|p|p].
  - reflexivity.
  - destruct (str_Z_pos p) as (_ & Hd & Hv).
    rewrite (proj1 (number_of_digits _ Hd)), Hv. reflexivity.
  - destruct (str_Z_pos p) as (_ & Hd & Hv).
    rewrite str_Z_neg, (proj2 (number_of_digits _ Hd)), Hv. reflexivity.
Qed.

Lemma format_number_integer (x : number) :
  is_integer x = true -> format_number x = str_Z (mantissa x).
Proof.
  unfold is_integer, format_number. intros H.
  apply Nat.eqb_eq in H. rewrite H.
  change (pow10 0) with 1. rewrite Z.mod_1_r, Z.div_1_r. reflexivity.
Qed.

Lemma number_roundtrip (x : number) :
  is_integer x = true -> number_of_token (format_number x) = Some x.
Proof.
  intros H. rewrite (format_number_integer x H), number_of_token_str_Z.
  destruct x as [m sc]. unfold is_integer in H. simpl in H.
  apply Nat.eqb_eq in H. subst sc. reflexivity.
Qed.

(** The text of an integer entry is one word. *)
Lemma str_Z_word (z : Z) :
  is_empty (str_Z z) = false /\ all_chars word_char (str_Z z) = true.
Proof.
  assert (Hpos : forall p, is_empty (str_Z (Zpos p)) = false
                           /\ all_chars word_char (str_Z (Zpos p)) = true).
  { intros p. destruct (str_Z_pos p) as (_ & Hd & _).
    unfold is_digits in Hd. apply andb_true_iff in Hd as [Hne Hds].
    split.
    - destruct (str_Z (Zpos p)); [discriminate | reflexivity].
    - apply (all_chars_weaken isdigit); [exact isdigit_word_char | exact Hds]. }
  destruct z as [|p|p].
  - split; reflexivity.
  - apply Hpos.
  - rewrite str_Z_neg. destruct (Hpos p) as [_ Hw].
    split; [reflexivity|]. simpl. exact Hw.
Qed.


(** ** Lexing a formatted matrix *)

Lemma lex_word_char (word : string) (c : ascii) (s : string) :
  word_char c = true ->
  lex word (String c s) = lex (word ++ String c EmptyString) s.
Proof.
  unfold word_char. intros H. cbn [lex].
  destruct (isspace c); [discriminate|].
  destruct (Ascii.eqb c "["); [discriminate|].
  destruct (Ascii.eqb c "]"); [discriminate|].
  destruct (Ascii.eqb c ","); [discriminate|].
  reflexivity.
Qed.

Lemma lex_word (w : string) :
  all_chars word_char w = true ->
  forall word s, lex word (w ++ s) = lex (word ++ w) s.
Proof.
  induction w as [|c r IH]; intros H word s.
  - replace (word ++ EmptyString) with word; [reflexivity|].
    clear. induction word as [|d t IHt]; simpl; [|rewrite <- IHt]; reflexivity.
  - simpl in H. apply andb_true_iff in H as [Hc Hr].
    change (String c r ++ s) with (String c (r ++ s)).
    rewrite (lex_word_char word c (r ++ s) Hc), (IH Hr), append_assoc.
    reflexivity.
Qed.

(** A word followed by a closing bracket, and by a comma and a space. *)
Lemma lex_word_close (w s : string) :
  is_empty w = false -> all_chars word_char w = true ->
  lex EmptyString (w ++ String "]" s) = TWord w :: TClose :: lex EmptyString s.
Proof.
  intros Hne Hw. rewrite (lex_word w Hw). cbn [append lex]. simpl.
  unfold flush. rewrite Hne. reflexivity.
Qed.

Lemma lex_word_comma (w s : string) :
  is_empty w = false -> all_chars word_char w = true ->
  lex EmptyString (w ++ ", " ++ s) = TWord w :: TComma :: lex EmptyString s.
Proof.
  intros Hne Hw. rewrite (lex_word w Hw). cbn [append lex]. simpl.
  unfold flush. rewrite Hne. reflexivity.
Qed.

Lemma join_cons (sep p : string) (q : string) (rest : list string) :
  join sep (p :: q :: rest) = p ++ sep ++ join sep (q :: rest).
Proof. reflexivity. Qed.

Lemma lex_entries (words : list string) :
  words <> [] ->
  (forall w, In w words -> is_empty w = false /\ all_chars word_char w = true) ->
  forall s,
    lex EmptyString (join ", " words ++ String "]" s)
    = (entry_tokens words ++ TClose :: lex EmptyString s)%list.
Proof.
  induction words as [|w rest IH]; intros Hne Hwords s; [contradiction|].
  destruct (Hwords w (or_introl eq_refl)) as [Hw1 Hw2].
  destruct rest as [|w2 rest].
  - simpl join. simpl entry_tokens. apply lex_word_close; assumption.
  - rewrite join_cons, !append_assoc.
    rewrite (lex_word_comma w _ Hw1 Hw2).
    cbn [entry_tokens app]. rewrite IH.
    + reflexivity.
    + discriminate.
    + intros w' Hw'. apply Hwords. right. exact Hw'.
Qed.

Lemma format_number_word (x : number) :
  is_integer x = true ->
  is_empty (format_number x) = false
  /\ all_chars word_char (format_number x) = true.
Proof.
  intros H. rewrite (format_number_integer x H). apply str_Z_word.
Qed.

Lemma lex_row (row : list number) (s : string) :
  row <> [] -> forallb is_integer row = true ->
  lex EmptyString (format_row row ++ s)
  = (row_tokens row ++ lex EmptyString s)%list.
Proof.
  intros Hne Hints. unfold format_row, row_tokens.
  rewrite !append_assoc.
  change ("[" ++ join ", " (map format_number row) ++ "]" ++ s)
    with (String "[" (join ", " (map format_number row) ++ String "]" s)).
  cbn [lex]. simpl isspace. simpl Ascii.eqb. cbv iota. unfold flush at 1.
  simpl is_empty. cbv iota.
  rewrite lex_entries.
  - rewrite <- app_comm_cons, <- app_assoc. reflexivity.
  - destruct row; [contradiction | discriminate].
  - intros w Hw. apply in_map_iff in Hw as [x [<- Hx]].
    apply format_number_word.
    rewrite forallb_forall in Hints. apply Hints, Hx.
Qed.

Lemma lex_rows (rows : list (list number)) :
  rows <> [] ->
  (forall row, In row rows -> row <> [] /\ forallb is_integer row = true) ->
  forall s,
    lex EmptyString (join ", " (map format_row rows) ++ String "]" s)
    = (rows_tokens rows ++ TClose :: lex EmptyString s)%list.
Proof.
  induction rows as [|row rest IH]; intros Hne Hrows s; [contradiction|].
  destruct (Hrows row (or_introl eq_refl)) as [Hr1 Hr2].
  destruct rest as [|row2 rest].
  - simpl map. simpl join. simpl rows_tokens.
    rewrite (lex_row row _ Hr1 Hr2). reflexivity.
  - cbn [map]. rewrite join_cons, !append_assoc.
    rewrite (lex_row row _ Hr1 Hr2).
    change (", " ++ join ", " (format_row row2 :: map format_row rest) ++ String "]" s)
      with (String "," (String " "
              (join ", " (map format_row (row2 :: rest)) ++ String "]" s))).
    cbn [lex]. simpl isspace. simpl Ascii.eqb. cbv iota. unfold flush.
    simpl is_empty. cbv iota.
    rewrite IH.
    + cbn [rows_tokens]. rewrite <- app_assoc. reflexivity.
    + discriminate.
    + intros r Hr. apply Hrows. right. exact Hr.
Qed.


(** ** Parsing the tokens of a formatted matrix *)

Lemma parse_word (rows : list (list number)) (acc : list number) (w : string)
    (x : number) (rest : list token) :
  number_of_token w = Some x ->
  parse_tokens rows (InRow acc true) (TWord w :: rest)
  = parse_tokens rows (InRow (x :: acc) false) rest.
Proof. intros H. cbn [parse_tokens]. rewrite H. reflexivity. Qed.

Lemma parse_comma (rows : list (list number)) (acc : list number)
    (rest : list token) :
  parse_tokens rows (InRow acc false) (TComma :: rest)
  = parse_tokens rows (InRow acc true) rest.
Proof. reflexivity. Qed.

Lemma parse_close (rows : list (list number)) (acc : list number)
    (rest : list token) :
  (forall first, In first rows -> List.length first = List.length acc) ->
  parse_tokens rows (InRow acc false) (TClose :: rest)
  = parse_tokens (List.rev acc :: rows) AfterRow rest.
Proof.
  intros H. cbn [parse_tokens].
  destruct rows as [|first rows']; [reflexivity|].
  rewrite length_rev, (H first (or_introl eq_refl)), Nat.eqb_refl. reflexivity.
Qed.

Lemma parse_entries (xs : list number) :
  xs <> [] -> forallb is_integer xs = true ->
  forall rows acc rest,
    parse_tokens rows (InRow acc true)
      (entry_tokens (map format_number xs) ++ TClose :: rest)%list
    = parse_tokens rows (InRow (List.rev xs ++ acc)%list false) (TClose :: rest).
Proof.
  induction xs as [|x rest_xs IH]; intros Hne Hints rows acc rest; [contradiction|].
  simpl in Hints. apply andb_true_iff in Hints as [Hx Hrest].
  destruct rest_xs as [|x2 rest_xs].
  - cbn [map entry_tokens app].
    rewrite (parse_word _ _ _ x _ (number_roundtrip x Hx)). reflexivity.
  - change (entry_tokens (map format_number (x :: x2 :: rest_xs)))
      with (TWord (format_number x) :: TComma
              :: entry_tokens (map format_number (x2 :: rest_xs))).
    rewrite <- !app_comm_cons.
    rewrite (parse_word _ _ _ x _ (number_roundtrip x Hx)), parse_comma.
    rewrite IH by (discriminate || exact Hrest).
    cbn [List.rev]. rewrite <- !app_assoc. reflexivity.
Qed.

Lemma parse_row (row : list number) (rows : list (list number))
    (rest : list token) :
  row <> [] -> forallb is_integer row = true ->
  (forall first, In first rows -> List.length first = List.length row) ->
  parse_tokens rows BeforeRow (row_tokens row ++ rest)%list
  = parse_tokens (row :: rows) AfterRow rest.
Proof.
  intros Hne Hints Hwidth. unfold row_tokens.
  rewrite <- app_comm_cons, <- app_assoc.
  change (parse_tokens rows BeforeRow (TOpen :: ?ts))
    with (parse_tokens rows (InRow [] true) ts).
  cbn [app]. rewrite (parse_entries row Hne Hints), app_nil_r.
  rewrite parse_close.
  - rewrite rev_involutive. reflexivity.
  - intros first Hfirst. rewrite length_rev. apply Hwidth, Hfirst.
Qed.

Lemma parse_rows (n : nat) (todo : list (list number)) :
  todo <> [] ->
  (forall row, In row todo ->
     row <> [] /\ forallb is_integer row = true /\ List.length row = n) ->
  forall done rest,
    (forall row, In row done -> List.length row = n) ->
    parse_tokens done BeforeRow (rows_tokens todo ++ TClose :: rest)%list
    = Done (List.rev done ++ todo)%list.
Proof.
  induction todo as [|row more IH]; intros Hne Hrows done rest Hdone;
    [contradiction|].
  destruct (Hrows row (or_introl eq_refl)) as (Hr1 & Hr2 & Hr3).
  assert (Hwidth : forall first, In first done ->
                     List.length first = List.length row).
  { intros first Hfirst. rewrite Hr3. apply Hdone, Hfirst. }
  destruct more as [|row2 more].
  - cbn [rows_tokens]. rewrite (parse_row row done _ Hr1 Hr2 Hwidth).
    reflexivity.
  - change (rows_tokens (row :: row2 :: more))
      with (row_tokens row ++ TComma :: rows_tokens (row2 :: more))%list.
    rewrite <- app_assoc, (parse_row row done _ Hr1 Hr2 Hwidth).
    rewrite <- app_comm_cons.
    change (parse_tokens (row :: done) AfterRow (TComma :: ?ts))
      with (parse_tokens (row :: done) BeforeRow ts).
    rewrite IH.
    + cbn [List.rev]. rewrite <- app_assoc. reflexivity.
    + discriminate.
    + intros r Hr. apply Hrows. right. exact Hr.
    + intros r [<- | Hr]; [exact Hr3 | apply Hdone, Hr].
Qed.

(** ** The text around the literal *)

Lemma identifier_char_not_open (c : ascii) :
  identifier_char c = true -> Ascii.eqb c "[" = false /\ isspace c = false.
Proof.
  destruct c as [[] [] [] [] [] [] [] []]; try discriminate; split; reflexivity.
Qed.

Lemma after_first_open_prefix (prefix : string) :
  all_chars (fun c => negb (Ascii.eqb c "[")) prefix = true ->
  forall body, after_first_open (prefix ++ String "[" body) = Some body.
Proof.
  induction prefix as [|c r IH]; intros H body.
  - reflexivity.
  - simpl in H. apply andb_true_iff in H as [Hc Hr].
    apply negb_true_iff in Hc.
    change (String c r ++ String "[" body) with (String c (r ++ String "[" body)).
    cbn [after_first_open]. rewrite Hc. apply IH, Hr.
Qed.


Lemma well_formed_rows (m : Matrix) :
  well_formed m = true -> integer_entries m = true ->
  m <> []
  /\ (forall row, In row m ->
        row <> [] /\ forallb is_integer row = true
        /\ List.length row = width m).
Proof.
  unfold well_formed, integer_entries. intros Hwf Hints.
  apply andb_true_iff in Hwf as [Hwf Hrect].
  apply andb_true_iff in Hwf as [Hrows Hcols].
  apply negb_true_iff, Nat.eqb_neq in Hrows, Hcols.
  rewrite forallb_forall in Hrect, Hints.
  split.
  - intros ->. apply Hrows. reflexivity.
  - intros row Hrow. specialize (Hrect row Hrow). apply Nat.eqb_eq in Hrect.
    repeat split.
    + intros ->. apply Hcols. symmetry. exact Hrect.
    + apply Hints, Hrow.
    + exact Hrect.
Qed.

Lemma strip_formatted (m : Matrix) (variable_name : string) :
  valid_identifier variable_name = true ->
  strip (format_matrix_as_sage m variable_name)
  = format_matrix_as_sage m variable_name.
Proof.
  intros Hv. unfold strip, format_matrix_as_sage.
  destruct variable_name as [|c r]; [discriminate|].
  unfold valid_identifier in Hv. apply andb_true_iff in Hv as [_ Hv].
  simpl in Hv. apply andb_true_iff in Hv as [Hc _].
  destruct (identifier_char_not_open c Hc) as [_ Hspace].
  change (String c r ++ ?t) with (String c (r ++ t)).
  cbn [lstrip_with]. rewrite Hspace.
  change (String c (r ++ ?t)) with (String c r ++ t).
  rewrite <- !append_assoc. apply rstrip_closing. reflexivity.
Qed.

Lemma after_first_open_formatted (m : Matrix) (variable_name : string) :
  valid_identifier variable_name = true ->
  after_first_open (format_matrix_as_sage m variable_name)
  = Some (join ", " (map format_row m) ++ "]").
Proof.
  intros Hv. unfold format_matrix_as_sage.
  rewrite <- (append_assoc variable_name " = ").
  change ("[" ++ ?t) with (String "[" t).
  apply after_first_open_prefix.
  rewrite all_chars_app. apply andb_true_iff. split; [|reflexivity].
  destruct variable_name as [|c r]; [discriminate|].
  unfold valid_identifier in Hv. apply andb_true_iff in Hv as [_ Hv].
  apply (all_chars_weaken identifier_char); [|exact Hv].
  intros d Hd. destruct (identifier_char_not_open d Hd) as [Hopen _].
  rewrite Hopen. reflexivity.
Qed.

(** C1. spec-modelled.  For every matrix of the data model (at least one
    row, rows of one length, at least one column) whose entries are
    integers, and every valid identifier, parsing the text that [format]
    writes gives the matrix back, entry for entry. *)
Theorem parse_format_roundtrip (m : Matrix) (variable_name : string) :
  well_formed m = true ->
  integer_entries m = true ->
  valid_identifier variable_name = true ->
  parse_matrix_literal (format_matrix_as_sage m variable_name) = Done m.
Proof.
  intros Hwf Hints Hv.
  destruct (well_formed_rows m Hwf Hints) as [Hne Hrows].
  unfold parse_matrix_literal.
  rewrite (strip_formatted m variable_name Hv).
  rewrite (after_first_open_formatted m variable_name Hv).
  assert (Htext : is_empty (format_matrix_as_sage m variable_name) = false).
  { unfold format_matrix_as_sage.
    destruct variable_name; [discriminate | reflexivity]. }
  rewrite Htext.
  rewrite lex_rows.
  - apply (parse_rows (width m) m Hne Hrows [] (lex EmptyString EmptyString)).
    intros row [].
  - exact Hne.
  - intros row Hrow. destruct (Hrows row Hrow) as (H1 & H2 & _). split; assumption.
Qed.

End Codec.

Lemma parse_format_roundtrip_witness :
  MatrixUtils.parse_matrix_literal
    (MatrixUtils.format_matrix_as_sage
       [[MatrixUtils.of_Z 0; MatrixUtils.of_Z (-17)];
        [MatrixUtils.of_Z 255; MatrixUtils.of_Z 4]] "M_001")
  = MatrixUtils.Done
      [[MatrixUtils.of_Z 0; MatrixUtils.of_Z (-17)];
       [MatrixUtils.of_Z 255; MatrixUtils.of_Z 4]].
Proof.
  apply (parse_format_roundtrip
           [[MatrixUtils.of_Z 0; MatrixUtils.of_Z (-17)];
            [MatrixUtils.of_Z 255; MatrixUtils.of_Z 4]] "M_001");
    reflexivity.
Defined.

(** ** The codec on the texts of the specification *)

Example parse_tolerates_assignment_and_junk :
  MatrixUtils.parse_matrix_literal "M = [[1, 2], [3, 4]]   # trailing junk"
  = MatrixUtils.Done
      [[MatrixUtils.of_Z 1; MatrixUtils.of_Z 2];
       [MatrixUtils.of_Z 3; MatrixUtils.of_Z 4]].
Proof. reflexivity. Qed.

Example parse_rejects_ragged_rows :
  MatrixUtils.parse_matrix_literal "[[1,2],[3]]"
  = MatrixUtils.Failed
      (MatrixUtils.ParseError
         "Row length mismatch: all rows must have the same length.").
Proof. reflexivity. Qed.

Example parse_rejects_empty_shapes :
  MatrixUtils.parse_matrix_literal "   "
  = MatrixUtils.Failed (MatrixUtils.ParseError "Matrix text is empty.")
  /\ MatrixUtils.parse_matrix_literal "[]"
     = MatrixUtils.Failed (MatrixUtils.ParseError "Matrix literal has no rows.")
  /\ MatrixUtils.parse_matrix_literal "[[]]"
     = MatrixUtils.Failed (MatrixUtils.ParseError "Matrix row has no entries.")
  /\ MatrixUtils.parse_matrix_literal "[[1, 2]"
     = MatrixUtils.Failed
         (MatrixUtils.ParseError "Unbalanced brackets in matrix literal.")
  /\ MatrixUtils.parse_matrix_literal "[[1, x]]"
     = MatrixUtils.Failed (MatrixUtils.ParseError "Not a number: x").
Proof. repeat split. Qed.

Example format_writes_decimals :
  MatrixUtils.format_matrix_as_sage
    [[ {| MatrixUtils.mantissa := -5; MatrixUtils.scale := 2 |};
       {| MatrixUtils.mantissa := 150; MatrixUtils.scale := 1 |};
       MatrixUtils.of_Z 255 ]] "M"
  = "M = [[-0.05, 15, 255]]".
Proof. reflexivity. Qed.

(* ===================================================================== *)
(** * Further properties of [app.py]                                      *)
(* ===================================================================== *)

Section StripMore.
Import Py.

Variable space : ascii -> bool.

Lemma rstrip_idempotent (s : string) :
  rstrip_with space (rstrip_with space s) = rstrip_with space s.
Proof.
  induction s as [|c r IH]; simpl.
  - reflexivity.
  - destruct (space c && is_empty (rstrip_with space r)) eqn:E; simpl.
    + reflexivity.
    + rewrite IH, E. reflexivity.
Qed.

Lemma lstrip_padding (pad s : string) :
  all_chars space pad = true ->
  lstrip_with space (pad ++ s) = lstrip_with space s.
Proof.
  induction pad as [|c r IH]; simpl; intros H.
  - reflexivity.
  - apply andb_true_iff in H as [Hc Hr]. rewrite Hc. apply IH, Hr.
Qed.

Lemma rstrip_blank (pad : string) :
  all_chars space pad = true -> rstrip_with space pad = EmptyString.
Proof.
  induction pad as [|c r IH]; simpl; intros H.
  - reflexivity.
  - apply andb_true_iff in H as [Hc Hr]. rewrite (IH Hr), Hc. reflexivity.
Qed.

Lemma rstrip_padding (s pad : string) :
  all_chars space pad = true ->
  rstrip_with space (s ++ pad) = rstrip_with space s.
Proof.
  intros H. induction s as [|c r IH].
  - simpl. apply rstrip_blank, H.
  - change (String c r ++ pad) with (String c (r ++ pad)).
    cbn [rstrip_with]. rewrite IH. reflexivity.
Qed.

End StripMore.

Section Loops.
Import Py App.

Lemma mapM_ok {A B : Type} (f : A -> result B) (xs : list A) :
  forall ys,
    mapM f xs = Ok ys ->
    List.length ys = List.length xs
    /\ forall k x, nth_error xs k = Some x ->
                   exists y, nth_error ys k = Some y /\ f x = Ok y.
Proof.
  induction xs as [|x rest IH]; intros ys; cbn [mapM].
  - intros [= <-]. split; [reflexivity|]. intros [|k] x'; discriminate.
  - destruct (f x) as [y|exc] eqn:Hx; cbn [bind]; [|discriminate].
    destruct (mapM f rest) as [ys'|exc]; cbn [bind]; [|discriminate].
    intros [= <-]. destruct (IH ys' eq_refl) as [Hlen Hnth].
    split; [simpl; congruence|].
    intros [|k] x'; simpl.
    + intros [= <-]. exists y. auto.
    + apply Hnth.
Qed.

Lemma enumerate_nth {A : Type} (xs : list A) :
  forall start k,
    nth_error (enumerate xs start) k
    = option_map (fun x => ((start + k)%nat, x)) (nth_error xs k).
Proof.
  induction xs as [|x rest IH]; intros start [|k]; simpl; try reflexivity.
  - rewrite Nat.add_0_r. reflexivity.
  - rewrite IH. replace (S start + k)%nat with (start + S k)%nat by lia.
    reflexivity.
Qed.

Lemma enumerate_length {A : Type} (xs : list A) :
  forall start, List.length (enumerate xs start) = List.length xs.
Proof.
  induction xs as [|x rest IH]; intros start; simpl; [|rewrite IH]; reflexivity.
Qed.

End Loops.

Section Handler.
Import Py App Observations.

Variable Matrix : Type.
Variable format_matrix_as_sage : Matrix -> string -> result string.
Variable image_to_matrix : bytes -> Z * Z -> bool -> result Matrix.
Variable matrix_to_plot_png :
  Matrix -> string -> option float -> option float -> option string ->
  result bytes.
Variable parse_matrix_literal : string -> result Matrix.
Variable video_to_matrices :
  FileStorage -> Z * Z -> bool -> Z -> Z -> result (list Matrix).
Variable b64encode : bytes -> string.

Local Abbreviation view :=
  (index Matrix format_matrix_as_sage image_to_matrix matrix_to_plot_png
     parse_matrix_literal video_to_matrices b64encode).
Local Abbreviation view_image :=
  (index_image Matrix format_matrix_as_sage image_to_matrix).
Local Abbreviation view_video :=
  (index_video Matrix format_matrix_as_sage video_to_matrices).
Local Abbreviation view_plot :=
  (index_plot Matrix matrix_to_plot_png parse_matrix_literal b64encode).

(** The four ways of a request through [index]. *)
Lemma index_dispatch (request : Request) :
  (method request = "POST" /\ request_mode (form request) = "image"
   /\ view request = view_image request)
  \/ (method request = "POST" /\ request_mode (form request) = "video"
      /\ view request = view_video request)
  \/ (method request = "POST" /\ request_mode (form request) = "plot"
      /\ view request = view_plot request)
  \/ ((method request <> "POST"
       \/ (request_mode (form request) <> "image"
           /\ request_mode (form request) <> "video"
           /\ request_mode (form request) <> "plot"))
      /\ view request = Ok initial_context).
Proof.
  unfold index, request_mode.
  destruct (String.eqb_spec (method request) "POST") as [Hm|Hm].
  - destruct (String.eqb_spec (get_default (form request) "mode" "image") "image")
      as [H1|H1]; [left; auto|].
    destruct (String.eqb_spec (get_default (form request) "mode" "image") "video")
      as [H2|H2]; [right; left; auto|].
    destruct (String.eqb_spec (get_default (form request) "mode" "image") "plot")
      as [H3|H3]; [right; right; left; auto|].
    right; right; right. auto.
  - right; right; right. auto.
Qed.

Lemma index_image_returns (request : Request) :
  exists output error,
    view_image request = Ok (image_context output error)
    /\ (is_set output + is_set error = 1)%nat.
Proof.
  unfold index_image.
  destruct (file_chosen _) as [file|].
  - destruct (bind _ _) as [text|exc]; eexists; eexists; split; reflexivity.
  - eexists; eexists; split; reflexivity.
Qed.

Lemma index_video_returns (request : Request) :
  exists outputs error,
    view_video request = Ok (video_context outputs error)
    /\ (is_set outputs + is_set error = 1)%nat.
Proof.
  unfold index_video.
  destruct (file_chosen _) as [file|];
    [|eexists; eexists; split; reflexivity].
  destruct (video_to_matrices _ _ _ _ _) as [[|m ms]|exc]; cbn [bind];
    try (eexists; eexists; split; reflexivity).
  destruct (mapM _ (enumerate (m :: ms) 1)) as [outputs|exc]; cbn [bind];
    eexists; eexists; split; reflexivity.
Qed.


(** A bound field gives a value, or is a text that is not a number. *)
Lemma parse_optional_float_cases (s field_name : string) :
  (exists v, _parse_optional_float (Some s) field_name = Ok v)
  \/ (strip s <> EmptyString /\ float_of_str (strip s) = None
      /\ _parse_optional_float (Some s) field_name
         = Raise (ValueError (field_name ++ " must be a number."))).
Proof.
  unfold _parse_optional_float.
  destruct (is_empty (strip s)) eqn:E; [left; eexists; reflexivity|].
  destruct (float_of_str (strip s)) eqn:F; [left; eexists; reflexivity|].
  right. apply is_empty_false in E. auto.
Qed.

(** The title that [index] hands to the renderer. *)
Lemma title_value_normal (t : string) :
  title_normal (if is_empty (strip t) then None else Some (strip t)) = true.
Proof.
  destruct (is_empty (strip t)) eqn:E; [reflexivity|].
  unfold title_normal. rewrite E. simpl.
  apply String.eqb_eq.
  unfold strip at 1.
  destruct (strip t) as [|c r] eqn:Hs; [discriminate|].
  assert (Hc : isspace c = false).
  { unfold strip in Hs.
    destruct (lstrip_with isspace t) as [|d u] eqn:Hl; [discriminate|].
    pose proof (lstrip_head isspace t d u Hl) as Hd.
    rewrite (rstrip_head isspace d u Hd) in Hs. injection Hs as -> _. exact Hd. }
  cbn [lstrip_with]. rewrite Hc.
  rewrite <- Hs. unfold strip. apply rstrip_idempotent.
Qed.


(** The walk through the plot branch of [index]: one goal for each of its
    seven ways out, with the facts that lead there. *)
Ltac plot_walk :=
  unfold index_plot;
  match goal with
  | |- context [is_empty (strip (matrix_text ?pf))] =>
      destruct (is_empty (strip (matrix_text pf))) eqn:Htext;
      [ apply is_empty_true in Htext
      | apply is_empty_false in Htext;
        destruct (parse_matrix_literal (matrix_text pf))
          as [the_matrix|[parser_msg|parser_msg]] eqn:Hparse;
        [ destruct (parse_optional_float_cases (plot_vmin pf) "vmin")
            as [[vmin_value Hvmin]|(Hvmin1 & Hvmin2 & Hvmin)];
          rewrite Hvmin; cbn [bind];
          [ destruct (parse_optional_float_cases (plot_vmax pf) "vmax")
              as [[vmax_value Hvmax]|(Hvmax1 & Hvmax2 & Hvmax)];
            rewrite Hvmax; cbn [bind];
            [ match goal with
              | |- context [matrix_to_plot_png the_matrix ?c vmin_value vmax_value ?t] =>
                  destruct (matrix_to_plot_png the_matrix c vmin_value vmax_value t)
                    as [png_bytes|render_exc] eqn:Hrender
              end
            | ]
          | ]
        | | ] ]
  end.



Lemma eqb_mode_false (mode other : string) :
  mode <> other -> String.eqb mode other = false.
Proof. intros H. apply String.eqb_neq, H. Qed.

(** X2. A response carries one result or one error when the request is a
    POST in one of the three modes, in the two fields of that mode, and none
    otherwise: never a result beside an error, never anything of another
    mode. *)
Theorem one_result_per_request (request : Request) (context : Context) :
  view request = Ok context ->
  (is_set (image_output context) + is_set (image_error context)
   = if String.eqb (method request) "POST"
        && String.eqb (request_mode (form request)) "image"
     then 1 else 0)%nat
  /\ (is_set (video_outputs context) + is_set (video_error context)
      = if String.eqb (method request) "POST"
           && String.eqb (request_mode (form request)) "video"
        then 1 else 0)%nat
  /\ (is_set (plot_result context) + is_set (plot_error context)
      = if String.eqb (method request) "POST"
           && String.eqb (request_mode (form request)) "plot"
        then 1 else 0)%nat.
Proof.
  destruct (index_dispatch request)
    as [(Hm & Hp & ->)|[(Hm & Hp & ->)|[(Hm & Hp & ->)|(Hno & ->)]]].
  - destruct (index_image_returns request) as (o & e & -> & Hone).
    intros [= <-]. rewrite Hm, Hp. simpl. auto.
  - destruct (index_video_returns request) as (o & e & -> & Hone).
    intros [= <-]. rewrite Hm, Hp. simpl. auto.
  - rewrite Hm, Hp. plot_walk; intros [= <-]; simpl; auto.
  - intros [= <-]. simpl.
    destruct Hno as [Hno|(H1 & H2 & H3)].
    + rewrite (eqb_mode_false _ _ Hno). simpl. auto.
    + rewrite (eqb_mode_false _ _ H1), (eqb_mode_false _ _ H2),
        (eqb_mode_false _ _ H3), !andb_false_r. auto.
Qed.


(** X4. The error text of a plot is one of five: the request for a matrix
    when the text is blank, the message of the parser's [ValueError], the
    two messages of the bounds, or the text of an exception of the renderer
    after "Failed to generate plot: ". *)
Theorem plot_error_is_one_of_five (request : Request) (context : Context)
    (text : string) :
  view request = Ok context ->
  plot_error context = Some text ->
  request_mode (form request) = "plot"
  /\ ((text = "Paste a matrix definition to generate a plot."
       /\ strip (matrix_text (request_plot_form (form request))) = EmptyString)
      \/ parse_matrix_literal (matrix_text (request_plot_form (form request)))
         = Raise (ValueError text)
      \/ (text = "vmin must be a number."
          /\ float_of_str (strip (plot_vmin (request_plot_form (form request))))
             = None)
      \/ (text = "vmax must be a number."
          /\ float_of_str (strip (plot_vmax (request_plot_form (form request))))
             = None)
      \/ (exists m vmin vmax title_value exc,
            matrix_to_plot_png m (plot_cmap (request_plot_form (form request)))
              vmin vmax title_value = Raise exc
            /\ text = "Failed to generate plot: " ++ str_exn exc)).
Proof.
  destruct (index_dispatch request)
    as [(Hm & Hp & ->)|[(Hm & Hp & ->)|[(Hm & Hp & ->)|(Hno & ->)]]].
  - destruct (index_image_returns request) as (o & e & -> & _).
    intros [= <-]. discriminate.
  - destruct (index_video_returns request) as (o & e & -> & _).
    intros [= <-]. discriminate.
  - plot_walk; intros [= <-]; simpl; intros [= <-]; (split; [exact Hp|]).
    + auto.
    + right; right; right; right. eauto 8.
    + right; right; right; left. auto.
    + right; right; left. auto.
    + right; left. reflexivity.
  - intros [= <-]. discriminate.
Qed.


(** The title shown with a plot, for a title field [t]. *)
Lemma shown_title (t : string) :
  let shown :=
    match (if is_empty (strip t) then None else Some (strip t)) with
    | Some stripped => stripped
    | None => "Matrix Plot"
    end in
  shown <> EmptyString
  /\ strip shown = shown
  /\ (shown = strip t \/ (strip t = EmptyString /\ shown = "Matrix Plot")).
Proof.
  pose proof (title_value_normal t) as Hn. cbv zeta.
  destruct (is_empty (strip t)) eqn:E.
  - apply is_empty_true in E.
    split; [discriminate|]. split; [reflexivity|]. right. auto.
  - unfold title_normal in Hn. rewrite E in Hn. simpl in Hn.
    apply String.eqb_eq in Hn. apply is_empty_false in E. auto.
Qed.

(** X5. A plot that is shown comes from a successful rendering of the
    parsed matrix: its data URL is "data:image/png;base64," followed by the
    encoded picture, no error text stands beside it, and its title is never
    empty and has no whitespace around it: the submitted title stripped, or
    "Matrix Plot" when that is blank. *)
Theorem plot_result_is_well_formed (request : Request) (context : Context)
    (shown : PlotResult) :
  view request = Ok context ->
  plot_result context = Some shown ->
  plot_error context = None
  /\ title shown <> EmptyString
  /\ strip (title shown) = title shown
  /\ (title shown = strip (plot_title (request_plot_form (form request)))
      \/ (strip (plot_title (request_plot_form (form request))) = EmptyString
          /\ title shown = "Matrix Plot"))
  /\ exists m vmin vmax title_value png_bytes,
       parse_matrix_literal (matrix_text (request_plot_form (form request)))
       = Ok m
       /\ matrix_to_plot_png m (plot_cmap (request_plot_form (form request)))
            vmin vmax title_value = Ok png_bytes
       /\ data_url shown = "data:image/png;base64," ++ b64encode png_bytes.
Proof.
  destruct (index_dispatch request)
    as [(Hm & Hp & ->)|[(Hm & Hp & ->)|[(Hm & Hp & ->)|(Hno & ->)]]].
  - destruct (index_image_returns request) as (o & e & -> & _).
    intros [= <-]. discriminate.
  - destruct (index_video_returns request) as (o & e & -> & _).
    intros [= <-]. discriminate.
  - plot_walk; intros [= <-]; cbn [plot_result plot_error plot_context];
      intros [= <-]. cbn [title data_url].
    destruct (shown_title (plot_title (request_plot_form (form request))))
      as (Hne & Hstrip & Hshown).
    split; [reflexivity|]. split; [exact Hne|]. split; [exact Hstrip|].
    split.
    + exact Hshown.
    + exists the_matrix, vmin_value, vmax_value. eexists. exists png_bytes.
      split; [reflexivity|]. split; [exact Hrender | reflexivity].
  - intros [= <-]. discriminate.
Qed.

(** X6. The bounds are checked in order, before anything is drawn: on a
    plot request whose matrix text parses, a lower bound that is not a
    number gives "vmin must be a number." whatever the upper bound holds,
    and an upper bound that is not a number gives "vmax must be a number."
    when the lower bound is accepted. *)
Theorem bounds_are_checked_in_order (request : Request) (m : Matrix) :
  method request = "POST" ->
  request_mode (form request) = "plot" ->
  strip (matrix_text (request_plot_form (form request))) <> EmptyString ->
  parse_matrix_literal (matrix_text (request_plot_form (form request))) = Ok m ->
  (strip (plot_vmin (request_plot_form (form request))) <> EmptyString ->
   float_of_str (strip (plot_vmin (request_plot_form (form request)))) = None ->
   view request
   = Ok (plot_context None (Some "vmin must be a number.")
           (request_plot_form (form request))))
  /\ (forall vmin_value,
        _parse_optional_float
          (Some (plot_vmin (request_plot_form (form request)))) "vmin"
        = Ok vmin_value ->
        strip (plot_vmax (request_plot_form (form request))) <> EmptyString ->
        float_of_str (strip (plot_vmax (request_plot_form (form request))))
        = None ->
        view request
        = Ok (plot_context None (Some "vmax must be a number.")
                (request_plot_form (form request)))).
Proof.
  intros Hm Hp Htext Hparse.
  assert (Hview : view request = view_plot request).
  { destruct (index_dispatch request)
      as [(_ & H & _)|[(_ & H & _)|[(_ & _ & H)|([H|(_ & _ & H)] & _)]]];
      congruence. }
  rewrite Hview. unfold index_plot.
  apply is_empty_false in Htext. rewrite Htext, Hparse.
  split.
  - intros H1 H2.
    rewrite (parse_optional_float_malformed _ "vmin" H1 H2). reflexivity.
  - intros vmin_value Hvmin H1 H2.
    rewrite Hvmin, (parse_optional_float_malformed _ "vmax" H1 H2). reflexivity.
Qed.

(** X7. The renderer is only ever called with a color scale of the five
    and with a title that is absent, or not empty and stripped: the
    response is the same for any two renderers that agree on such calls. *)
Theorem renderer_sees_normal_arguments (request : Request)
    (other_renderer :
       Matrix -> string -> option float -> option float -> option string ->
       result bytes) :
  (forall m cmap vmin vmax title_value,
     In cmap valid_cmap_values ->
     title_normal title_value = true ->
     other_renderer m cmap vmin vmax title_value
     = matrix_to_plot_png m cmap vmin vmax title_value) ->
  index Matrix format_matrix_as_sage image_to_matrix other_renderer
    parse_matrix_literal video_to_matrices b64encode request
  = view request.
Proof.
  intros Hagree. unfold index.
  destruct (String.eqb (method request) "POST"); [|reflexivity].
  destruct (String.eqb (get_default (form request) "mode" "image") "image");
    [reflexivity|].
  destruct (String.eqb (get_default (form request) "mode" "image") "video");
    [reflexivity|].
  destruct (String.eqb (get_default (form request) "mode" "image") "plot");
    [|reflexivity].
  unfold index_plot.
  destruct (is_empty (strip (matrix_text (request_plot_form (form request)))));
    [reflexivity|].
  destruct (parse_matrix_literal _) as [m|exc]; [|reflexivity].
  destruct (bind _ _) as [[vmin_value vmax_value]|exc]; [|reflexivity].
  rewrite Hagree.
  - reflexivity.
  - apply request_cmap_valid.
  - apply title_value_normal.
Qed.


Lemma file_chosen_none (file : option FileStorage) :
  file_chosen file = None
  <-> (file = None
       \/ exists f, file = Some f
                    /\ (filename f = None \/ filename f = Some EmptyString)).
Proof.
  unfold file_chosen. destruct file as [f|].
  - destruct (filename f) as [[|c r]|] eqn:E; split; intros H;
      try discriminate; try reflexivity.
    + right. exists f. auto.
    + destruct H as [H|(g & [= <-] & [H|H])]; congruence.
    + right. exists f. auto.
  - split; auto.
Qed.

Lemma index_on_mode (request : Request) :
  method request = "POST" ->
  (request_mode (form request) = "image" -> view request = view_image request)
  /\ (request_mode (form request) = "video" -> view request = view_video request)
  /\ (request_mode (form request) = "plot" -> view request = view_plot request).
Proof.
  intros Hm.
  destruct (index_dispatch request)
    as [(_ & H & E)|[(_ & H & E)|[(_ & H & E)|([H|(H1 & H2 & H3)] & _)]]];
    repeat split; intros Hp; congruence.
Qed.

(** X8. A POST without a usable upload is answered with a request for
    one, and no sampler is consulted: in image mode when the part "image" is
    missing or its file name is missing or empty, in video mode likewise for
    the part "video". *)
Theorem missing_upload_is_reported (request : Request) (part : string) :
  method request = "POST" ->
  get (files request) part = None
  \/ (exists f, get (files request) part = Some f
                /\ (filename f = None \/ filename f = Some EmptyString)) ->
  (request_mode (form request) = "image" -> part = "image" ->
   view request
   = Ok (image_context None (Some "Please choose an image to upload.")))
  /\ (request_mode (form request) = "video" -> part = "video" ->
      view request
      = Ok (video_context None (Some "Please choose a video to upload."))).
Proof.
  intros Hm Hfile. apply file_chosen_none in Hfile.
  destruct (index_on_mode request Hm) as (Himage & Hvideo & _).
  split; intros Hp ->.
  - rewrite (Himage Hp). unfold index_image. rewrite Hfile. reflexivity.
  - rewrite (Hvideo Hp). unfold index_video. rewrite Hfile. reflexivity.
Qed.

(** X9. A plot request whose matrix text is missing, empty or made of
    whitespace is answered with "Paste a matrix definition to generate a
    plot.": the parser and the renderer are not consulted, and the other
    fields are shown again. *)
Theorem blank_matrix_text_is_reported (request : Request) :
  method request = "POST" ->
  request_mode (form request) = "plot" ->
  all_chars isspace (get_default (form request) "matrix_text" EmptyString) = true ->
  view request
  = Ok (plot_context None
          (Some "Paste a matrix definition to generate a plot.")
          (request_plot_form (form request))).
Proof.
  intros Hm Hp Hblank. apply strip_blank in Hblank.
  destruct (index_on_mode request Hm) as (_ & _ & Hplot).
  rewrite (Hplot Hp). unfold index_plot.
  change (matrix_text (request_plot_form (form request)))
    with (get_default (form request) "matrix_text" EmptyString).
  rewrite Hblank. reflexivity.
Qed.

(** X10. A POST without a "mode" field is an image request: it is
    answered as the same request with the field "mode" set to "image". *)
Theorem missing_mode_means_image (request : Request) :
  get (form request) "mode" = None ->
  view request
  = view {| method := method request;
            form := ("mode", "image") :: form request;
            files := files request |}.
Proof.
  intros Hmode. unfold index, get_default. rewrite Hmode.
  cbn [method form files get]. simpl String.eqb.
  destruct (String.eqb (method request) "POST"); reflexivity.
Qed.

(** X11. What an image request shows comes from the sampler at 50 x 50
    with rescale on and from the formatter under the name "M": an output is
    the text the formatter gave for the sampled matrix, and an error is the
    request for a file, or "Failed to process image: " before the text of
    the exception that the sampler or the formatter raised. *)
Theorem image_response_comes_from_the_sampler (request : Request)
    (context : Context) :
  view request = Ok context ->
  (forall text,
     image_output context = Some text ->
     exists file m,
       file_chosen (get (files request) "image") = Some file
       /\ image_to_matrix (stream file) (50, 50) true = Ok m
       /\ format_matrix_as_sage m "M" = Ok text)
  /\ (forall text,
        image_error context = Some text ->
        text = "Please choose an image to upload."
        \/ exists file exc,
             file_chosen (get (files request) "image") = Some file
             /\ text = "Failed to process image: " ++ str_exn exc
             /\ (image_to_matrix (stream file) (50, 50) true = Raise exc
                 \/ exists m,
                      image_to_matrix (stream file) (50, 50) true = Ok m
                      /\ format_matrix_as_sage m "M" = Raise exc)).
Proof.
  destruct (index_dispatch request)
    as [(Hm & Hp & ->)|[(Hm & Hp & ->)|[(Hm & Hp & ->)|(Hno & ->)]]].
  - unfold index_image.
    destruct (file_chosen (get (files request) "image")) as [file|].
    + change TARGET_SIZE with (50, 50).
      destruct (image_to_matrix (stream file) (50, 50) true) as [m|exc] eqn:Hs;
        cbn [bind].
      * destruct (format_matrix_as_sage m "M") as [text|exc] eqn:Hf;
          intros [= <-]; split; intros text';
          cbn [image_output image_error image_context]; intros [= <-].
        -- exists file, m. auto.
        -- right. exists file, exc. split; [reflexivity|].
           split; [reflexivity|]. right. exists m. auto.
      * intros [= <-]; split; intros text';
          cbn [image_output image_error image_context]; intros [= <-].
        right. exists file, exc. auto.
    + intros [= <-]; split; intros text'; cbn [image_output image_error image_context];
        intros [= <-]; auto.
  - destruct (index_video_returns request) as (o & e & -> & _).
    intros [= <-]. split; intros text; discriminate.
  - plot_walk; intros [= <-]; split; intros text; discriminate.
  - intros [= <-]. split; intros text; discriminate.
Qed.


(** The video branch once the sampler has returned frames. *)
Lemma video_outputs_of_frames (matrices : list Matrix)
    (outputs : list VideoOutput) :
  mapM (video_output Matrix format_matrix_as_sage) (enumerate matrices 1)
  = Ok outputs ->
  List.length outputs = List.length matrices
  /\ forall k m,
       nth_error matrices k = Some m ->
       exists text,
         format_matrix_as_sage m ("M_" ++ format_03d (S k)) = Ok text
         /\ nth_error outputs k
            = Some {| label := "Frame " ++ str_nat (S k); matrix := text |}.
Proof.
  intros H. destruct (mapM_ok _ _ _ H) as [Hlen Hnth].
  rewrite enumerate_length in Hlen. split; [exact Hlen|].
  intros k m Hm.
  destruct (Hnth k (S k, m)) as [y [Hy Hf]].
  { rewrite enumerate_nth, Hm. reflexivity. }
  unfold video_output in Hf.
  destruct (format_matrix_as_sage m ("M_" ++ format_03d (S k))) as [text|exc];
    cbn [bind] in Hf; [|discriminate].
  injection Hf as <-. exists text. auto.
Qed.

(** X12. The frames of a video are shown in the order the sampler gave
    them, one entry for each, numbered from 1: entry [k] (from 0) is labelled
    "Frame k+1" and holds the text of the formatter for the matrix [k] under
    the name "M_" followed by [k+1] on three digits.  The sampler was called
    on the uploaded file at 50 x 50 with rescale on and with the
    frame-selection parameters of the request. *)
Theorem video_frames_are_numbered_from_one (request : Request)
    (context : Context) (outputs : list VideoOutput) :
  view request = Ok context ->
  video_outputs context = Some outputs ->
  exists file matrices,
    file_chosen (get (files request) "video") = Some file
    /\ video_to_matrices file (50, 50) true (request_frame_skip (form request))
         (request_max_frames (form request)) = Ok matrices
    /\ matrices <> []
    /\ List.length outputs = List.length matrices
    /\ forall k m,
         nth_error matrices k = Some m ->
         exists text,
           format_matrix_as_sage m ("M_" ++ format_03d (S k)) = Ok text
           /\ nth_error outputs k
              = Some {| label := "Frame " ++ str_nat (S k); matrix := text |}.
Proof.
  destruct (index_dispatch request)
    as [(Hm & Hp & ->)|[(Hm & Hp & ->)|[(Hm & Hp & ->)|(Hno & ->)]]].
  - destruct (index_image_returns request) as (o & e & -> & _).
    intros [= <-]. discriminate.
  - unfold index_video.
    destruct (file_chosen (get (files request) "video")) as [file|];
      [|intros [= <-]; discriminate].
    change TARGET_SIZE with (50, 50).
    destruct (video_to_matrices file (50, 50) true _ _) as [[|m ms]|exc] eqn:Hs;
      cbn [bind]; try (intros [= <-]; discriminate).
    destruct (mapM _ (enumerate (m :: ms) 1)) as [outs|exc] eqn:Hmap;
      cbn [bind]; intros [= <-]; [|discriminate].
    cbn [video_outputs video_context]. intros [= <-].
    destruct (video_outputs_of_frames _ _ Hmap) as [Hlen Hnth].
    exists file, (m :: ms).
    split; [reflexivity|]. split; [exact Hs|]. split; [discriminate|].
    split; assumption.
  - plot_walk; intros [= <-]; discriminate.
  - intros [= <-]. discriminate.
Qed.

(** X13. Video frames are shown all or none: when the formatter raises
    on any one of the matrices the sampler returned, the page shows no frame
    at all and an error text that starts with "Failed to process video: ". *)
Theorem one_bad_frame_hides_the_video (request : Request)
    (file : FileStorage) (matrices : list Matrix) (k : nat) (m : Matrix)
    (exc : exn) :
  method request = "POST" ->
  request_mode (form request) = "video" ->
  file_chosen (get (files request) "video") = Some file ->
  video_to_matrices file (50, 50) true (request_frame_skip (form request))
    (request_max_frames (form request)) = Ok matrices ->
  nth_error matrices k = Some m ->
  format_matrix_as_sage m ("M_" ++ format_03d (S k)) = Raise exc ->
  exists raised,
    view request
    = Ok (video_context None
            (Some ("Failed to process video: " ++ str_exn raised))).
Proof.
  intros Hm Hp Hfile Hs Hk Hf.
  destruct (index_on_mode request Hm) as (_ & Hvideo & _).
  rewrite (Hvideo Hp). unfold index_video. rewrite Hfile.
  change TARGET_SIZE with (50, 50). rewrite Hs. cbn [bind].
  destruct matrices as [|m0 ms]; [destruct k; discriminate|].
  destruct (mapM _ (enumerate (m0 :: ms) 1)) as [outs|raised] eqn:Hmap;
    cbn [bind].
  - destruct (video_outputs_of_frames _ _ Hmap) as [_ Hnth].
    destruct (Hnth k m Hk) as [text [Htext _]]. congruence.
  - exists raised. reflexivity.
Qed.

(** X14. The error text of a video is one of three: the request for a
    file, "No readable frames were detected in this video." when the sampler
    returned no matrix, or "Failed to process video: " before the text of an
    exception. *)
Theorem video_error_is_one_of_three (request : Request) (context : Context)
    (text : string) :
  view request = Ok context ->
  video_error context = Some text ->
  video_outputs context = None
  /\ (text = "Please choose a video to upload."
      \/ (text = "No readable frames were detected in this video."
          /\ exists file,
               file_chosen (get (files request) "video") = Some file
               /\ video_to_matrices file (50, 50) true
                    (request_frame_skip (form request))
                    (request_max_frames (form request)) = Ok [])
      \/ exists exc, text = "Failed to process video: " ++ str_exn exc).
Proof.
  destruct (index_dispatch request)
    as [(Hm & Hp & ->)|[(Hm & Hp & ->)|[(Hm & Hp & ->)|(Hno & ->)]]].
  - destruct (index_image_returns request) as (o & e & -> & _).
    intros [= <-]. discriminate.
  - unfold index_video.
    destruct (file_chosen (get (files request) "video")) as [file|].
    + change TARGET_SIZE with (50, 50).
      destruct (video_to_matrices file (50, 50) true _ _) as [[|m ms]|exc] eqn:Hs;
        cbn [bind].
      * intros [= <-]. cbn [video_error video_outputs video_context].
        intros [= <-]. split; [reflexivity|]. right; left.
        split; [reflexivity|]. exists file. split; [reflexivity | exact Hs].
      * destruct (mapM _ (enumerate (m :: ms) 1)) as [outs|exc] eqn:Hmap;
          cbn [bind]; intros [= <-];
          cbn [video_error video_outputs video_context]; intros [= <-].
        split; [reflexivity|]. right; right. exists exc. reflexivity.
      * intros [= <-]. cbn [video_error video_outputs video_context].
        intros [= <-]. split; [reflexivity|]. right; right.
        exists exc. reflexivity.
    + intros [= <-]. cbn [video_error video_outputs video_context].
      intros [= <-]. auto.
  - plot_walk; intros [= <-]; discriminate.
  - intros [= <-]. discriminate.
Qed.

Lemma request_frame_policy (form : MultiDict string) :
  1 <= request_frame_skip form /\ 1 <= request_max_frames form <= 25.
Proof.
  unfold request_frame_skip, request_max_frames.
  rewrite !safe_int_clamp. unfold Statements.clamp, MAX_FRAMES_DISPLAY. lia.
Qed.

(** X15. The video sampler is only ever called at 50 x 50 with rescale on,
    with a frame skip of at least 1 and a frame cap between 1 and 25: the
    response is the same for any two samplers that agree on such calls. *)
Theorem sampler_sees_a_valid_policy (request : Request)
    (other_sampler :
       FileStorage -> Z * Z -> bool -> Z -> Z -> result (list Matrix)) :
  (forall file frame_skip max_frames,
     1 <= frame_skip -> 1 <= max_frames <= 25 ->
     other_sampler file (50, 50) true frame_skip max_frames
     = video_to_matrices file (50, 50) true frame_skip max_frames) ->
  index Matrix format_matrix_as_sage image_to_matrix matrix_to_plot_png
    parse_matrix_literal other_sampler b64encode request
  = view request.
Proof.
  intros Hagree. unfold index.
  destruct (String.eqb (method request) "POST"); [|reflexivity].
  destruct (String.eqb (get_default (form request) "mode" "image") "image");
    [reflexivity|].
  destruct (String.eqb (get_default (form request) "mode" "image") "video");
    [|reflexivity].
  unfold index_video.
  destruct (file_chosen (get (files request) "video")) as [file|];
    [|reflexivity].
  change TARGET_SIZE with (50, 50).
  destruct (request_frame_policy (form request)) as [Hskip Hmax].
  rewrite (Hagree file _ _ Hskip Hmax). reflexivity.
Qed.

(** The frames shown are as many as the matrices of the sampler, which
    are not none. *)
Lemma shown_frames_count (request : Request) (context : Context)
    (outputs : list VideoOutput) :
  view request = Ok context ->
  video_outputs context = Some outputs ->
  exists file matrices,
    video_to_matrices file (50, 50) true (request_frame_skip (form request))
      (request_max_frames (form request)) = Ok matrices
    /\ matrices <> []
    /\ List.length outputs = List.length matrices.
Proof.
  destruct (index_dispatch request)
    as [(Hm & Hp & ->)|[(Hm & Hp & ->)|[(Hm & Hp & ->)|(Hno & ->)]]].
  - destruct (index_image_returns request) as (o & e & -> & _).
    intros [= <-]. discriminate.
  - unfold index_video.
    destruct (file_chosen (get (files request) "video")) as [file|];
      [|intros [= <-]; discriminate].
    change TARGET_SIZE with (50, 50).
    destruct (video_to_matrices file (50, 50) true _ _) as [[|m ms]|exc] eqn:Hs;
      cbn [bind]; try (intros [= <-]; discriminate).
    destruct (mapM _ (enumerate (m :: ms) 1)) as [outs|exc] eqn:Hmap;
      cbn [bind]; intros [= <-]; [|discriminate].
    cbn [video_outputs video_context]. intros [= <-].
    destruct (video_outputs_of_frames _ _ Hmap) as [Hlen _].
    exists file, (m :: ms).
    split; [exact Hs|]. split; [discriminate | exact Hlen].
  - plot_walk; intros [= <-]; discriminate.
  - intros [= <-]. discriminate.
Qed.

(** X16. With a sampler that returns at most [max_frames] matrices, the
    page never shows more than 25 frames, and never an empty list of
    frames. *)
Theorem at_most_25_frames_are_shown (request : Request) (context : Context)
    (outputs : list VideoOutput) :
  (forall file size rescale frame_skip max_frames matrices,
     1 <= max_frames ->
     video_to_matrices file size rescale frame_skip max_frames = Ok matrices ->
     Z.of_nat (List.length matrices) <= max_frames) ->
  view request = Ok context ->
  video_outputs context = Some outputs ->
  (1 <= List.length outputs <= 25)%nat.
Proof.
  intros Hcap Hview Hout.
  destruct (shown_frames_count request context outputs Hview Hout)
    as (file & matrices & Hs & Hne & Hlen).
  destruct (request_frame_policy (form request)) as [_ [Hlo Hhi]].
  pose proof (Hcap _ _ _ _ _ _ Hlo Hs) as Hle.
  rewrite Hlen. destruct matrices; [contradiction|]. simpl in *. lia.
Qed.


End Handler.

Section Texts.
Import Py App Statements.

(** ** Decimal texts *)

Lemma digits_value_nat_acc (d : Decimal.uint) :
  forall acc : nat,
    digits_value (Z.of_nat acc) (DecimalString.NilEmpty.string_of_uint d)
    = Z.of_nat (Nat.of_uint_acc d acc).
Proof.
  induction d; intros acc;
    cbn [DecimalString.NilEmpty.string_of_uint digits_value Nat.of_uint_acc];
    try reflexivity;
    rewrite Nat.tail_mul_spec;
    match goal with
    | |- digits_value ?v _ = Z.of_nat (Nat.of_uint_acc _ ?a) =>
        replace v with (Z.of_nat a)
          by (unfold digit_value, code; cbn [N_of_ascii N_of_digits];
              simpl Z.of_N; lia)
    end; apply IHd.
Qed.

Lemma digits_value_str_nat (n : nat) : digits_value 0 (str_nat n) = Z.of_nat n.
Proof.
  unfold str_nat, DecimalString.NilZero.string_of_uint.
  pose proof (DecimalNat.Unsigned.of_to n) as Hn.
  destruct (Nat.to_uint n) eqn:E;
    try (rewrite <- Hn; apply (digits_value_nat_acc _ 0)).
  rewrite <- Hn. reflexivity.
Qed.

Lemma digits_value_zeros (k : nat) (s : string) :
  digits_value 0 (zeros k ++ s) = digits_value 0 s.
Proof. induction k as [|k IH]; simpl; [reflexivity | exact IH]. Qed.

Lemma string_length_app (s t : string) :
  String.length (s ++ t) = (String.length s + String.length t)%nat.
Proof. induction s as [|c r IH]; simpl; [|rewrite IH]; reflexivity. Qed.

Lemma zeros_length (k : nat) : String.length (zeros k) = k.
Proof. induction k as [|k IH]; simpl; [|rewrite IH]; reflexivity. Qed.

Lemma append_cancel (p s t : string) : p ++ s = p ++ t -> s = t.
Proof.
  induction p as [|c r IH]; simpl; intros H; [exact H|].
  injection H as H. apply IH, H.
Qed.

(** X17. The frames of one page have distinct labels and distinct
    variable names: the three-digit number in "M_001", "M_002", ... has at
    least three characters, reads back as the index of the frame, and two
    indices that give the same name, or the same label, are equal. *)
Theorem frame_names_are_distinct (i j : nat) :
  (3 <= String.length (format_03d i))%nat
  /\ digits_value 0 (format_03d i) = Z.of_nat i
  /\ ("M_" ++ format_03d i = "M_" ++ format_03d j -> i = j)
  /\ ("Frame " ++ str_nat i = "Frame " ++ str_nat j -> i = j).
Proof.
  assert (Hvalue : forall n, digits_value 0 (format_03d n) = Z.of_nat n).
  { intros n. unfold format_03d.
    rewrite digits_value_zeros. apply digits_value_str_nat. }
  split; [|split; [apply Hvalue|split]].
  - unfold format_03d. rewrite string_length_app, zeros_length. lia.
  - intros H. apply append_cancel in H.
    apply Nat2Z.inj. rewrite <- (Hvalue i), <- (Hvalue j), H. reflexivity.
  - intros H. apply append_cancel in H.
    apply Nat2Z.inj.
    rewrite <- (digits_value_str_nat i), <- (digits_value_str_nat j), H.
    reflexivity.
Qed.


(** ** Whitespace around a text *)

Lemma strip_with_clean (space : ascii -> bool) (s : string) :
  all_chars (fun c => negb (space c)) s = true ->
  lstrip_with space s = s /\ rstrip_with space s = s.
Proof.
  induction s as [|c r IH]; simpl; intros H.
  - auto.
  - apply andb_true_iff in H as [Hc Hr]. apply negb_true_iff in Hc.
    rewrite Hc. destruct (IH Hr) as [_ ->]. auto.
Qed.

Lemma lstrip_app (space : ascii -> bool) (s t : string) :
  lstrip_with space s <> EmptyString ->
  lstrip_with space (s ++ t) = lstrip_with space s ++ t.
Proof.
  induction s as [|c r IH]; simpl.
  - contradiction.
  - destruct (space c); [exact IH | reflexivity].
Qed.

(** Whitespace before and after a text does not change what is left of
    it. *)
Lemma strip_with_padding (space : ascii -> bool) (before s after : string) :
  all_chars space before = true ->
  all_chars space after = true ->
  rstrip_with space (lstrip_with space (before ++ s ++ after))
  = rstrip_with space (lstrip_with space s).
Proof.
  intros Hb Ha. rewrite (lstrip_padding space before _ Hb).
  destruct (lstrip_with space s) as [|c r] eqn:E.
  - apply (lstrip_blank space) in E.
    assert (H : all_chars space (s ++ after) = true).
    { rewrite all_chars_app, E, Ha. reflexivity. }
    apply (lstrip_blank space) in H. rewrite H. reflexivity.
  - rewrite lstrip_app by (rewrite E; discriminate).
    rewrite E. apply rstrip_padding, Ha.
Qed.

(** X18. Whitespace around a bound never matters: a vmin/vmax field with
    any whitespace of [str.isspace] before and after its text is parsed as
    the text alone, to the same value or the same error. *)
Theorem bound_ignores_surrounding_whitespace
    (before s after field_name : string) :
  all_chars isspace before = true ->
  all_chars isspace after = true ->
  _parse_optional_float (Some (before ++ s ++ after)) field_name
  = _parse_optional_float (Some s) field_name.
Proof.
  intros Hb Ha. unfold _parse_optional_float, strip.
  rewrite (strip_with_padding isspace before s after Hb Ha). reflexivity.
Qed.

(** ** Integers in a form field *)

Lemma isspace_numeral_not_word (c : ascii) :
  isdigit c = true \/ c = "-"%char -> negb (isspace_numeral c) = true.
Proof.
  intros [H| ->]; [|reflexivity].
  destruct c as [[] [] [] [] [] [] [] []]; try discriminate; reflexivity.
Qed.

Lemma split_sign_digit (c : ascii) (r : string) :
  isdigit c = true -> split_sign (String c r) = (false, String c r).
Proof.
  destruct c as [[] [] [] [] [] [] [] []]; try discriminate; reflexivity.
Qed.

Lemma span_digitpart_digits (ds : string) :
  all_chars isdigit ds = true ->
  forall after_digit, span_digitpart after_digit ds = (ds, EmptyString).
Proof.
  induction ds as [|c r IH]; simpl; intros H after_digit.
  - reflexivity.
  - apply andb_true_iff in H as [Hc Hr]. rewrite Hc, (IH Hr). reflexivity.
Qed.

Lemma int_of_digits (negative : bool) (ds : string) :
  MatrixUtils.is_digits ds = true ->
  (String.length ds <= int_max_str_digits)%nat ->
  int_of_str ((if negative then "-" else EmptyString) ++ ds)
  = Some (if negative then - digits_value 0 ds else digits_value 0 ds).
Proof.
  intros Hd Hlen. unfold MatrixUtils.is_digits in Hd.
  apply andb_true_iff in Hd as [Hne Hds].
  destruct ds as [|c r]; [discriminate|]. clear Hne.
  pose proof Hds as Hall. simpl in Hall.
  apply andb_true_iff in Hall as [Hc Hr].
  assert (Hclean : all_chars (fun a => negb (isspace_numeral a))
                     ((if negative then "-" else EmptyString) ++ String c r)
                   = true).
  { rewrite all_chars_app. apply andb_true_iff. split.
    - destruct negative; reflexivity.
    - apply (all_chars_weaken isdigit); [|exact Hds].
      intros a Ha. apply isspace_numeral_not_word. auto. }
  unfold int_of_str, strip_numeral.
  destruct (strip_with_clean isspace_numeral _ Hclean) as [-> ->].
  assert (Hsign : split_sign ((if negative then "-" else EmptyString) ++ String c r)
                  = (negative, String c r)).
  { destruct negative; [reflexivity | apply split_sign_digit, Hc]. }
  rewrite Hsign, (span_digitpart_digits _ Hds).
  apply Nat.ltb_ge in Hlen. rewrite Hlen. reflexivity.
Qed.

(** [int] reads back the text that [str] writes for an integer of at most
    4300 digits. *)
Lemma int_of_str_str_Z (z : Z) :
  (String.length (MatrixUtils.str_Z (Z.abs z)) <= int_max_str_digits)%nat ->
  int_of_str (MatrixUtils.str_Z z) = Some z.
Proof.
  destruct z as [|p|p]; intros Hlen.
  - reflexivity.
  - destruct (str_Z_pos p) as (_ & Hd & Hv).
    pose proof (int_of_digits false _ Hd Hlen) as H. cbn [append] in H.
    rewrite H, Hv. reflexivity.
  - destruct (str_Z_pos p) as (_ & Hd & Hv).
    pose proof (int_of_digits true _ Hd Hlen) as H. cbn [append] in H.
    rewrite str_Z_neg, H, Hv. reflexivity.
Qed.

(** X19. A frame-selection field that holds the decimal text of an
    integer of at most 4300 digits is read as that integer: [_safe_int]
    returns it when it lies within the bounds, the nearest bound otherwise,
    and never the default. *)
Theorem safe_int_reads_decimal_text
    (z default min_value : Z) (max_value : option Z) :
  (String.length (MatrixUtils.str_Z (Z.abs z)) <= int_max_str_digits)%nat ->
  _safe_int (Some (MatrixUtils.str_Z z)) default min_value max_value
  = clamp min_value max_value z
  /\ (min_value <= z ->
      (forall m, max_value = Some m -> z <= m) ->
      _safe_int (Some (MatrixUtils.str_Z z)) default min_value max_value = z).
Proof.
  intros Hlen.
  assert (H : _safe_int (Some (MatrixUtils.str_Z z)) default min_value max_value
              = clamp min_value max_value z).
  { rewrite safe_int_clamp. unfold parsed_or.
    rewrite (int_of_str_str_Z z Hlen). reflexivity. }
  split; [exact H|].
  intros Hmin Hmax. rewrite H. unfold clamp.
  destruct max_value as [m|]; [specialize (Hmax m eq_refl)|]; lia.
Qed.

End Texts.

Section FormRoundTrip.
Import Py App Observations.

Lemma fields_of_get (plot_form : PlotForm) :
  get (fields_of plot_form) "matrix_text" = Some (matrix_text plot_form)
  /\ get (fields_of plot_form) "plot_title" = Some (plot_title plot_form)
  /\ get (fields_of plot_form) "plot_vmin" = Some (plot_vmin plot_form)
  /\ get (fields_of plot_form) "plot_vmax" = Some (plot_vmax plot_form)
  /\ get (fields_of plot_form) "plot_cmap" = Some (plot_cmap plot_form).
Proof. repeat split. Qed.

(** X20. Reading the form is stable: a plot form whose color scale is one
    of the five, sent back field by field, is read as itself; so the form
    that a response shows, sent back unchanged, is shown again unchanged,
    and a color scale that was replaced by "gray" stays "gray". *)
Theorem shown_form_reads_back (plot_form : PlotForm) (form : MultiDict string) :
  (In (plot_cmap plot_form) valid_cmap_values ->
   request_plot_form (fields_of plot_form) = plot_form)
  /\ request_plot_form (fields_of (request_plot_form form))
     = request_plot_form form.
Proof.
  assert (H : forall pf, In (plot_cmap pf) valid_cmap_values ->
                         request_plot_form (fields_of pf) = pf).
  { intros pf Hin.
    destruct (fields_of_get pf) as (H1 & H2 & H3 & H4 & H5).
    unfold request_plot_form, get_default.
    rewrite H1, H2, H3, H4, (request_cmap_kept _ _ H5 Hin).
    destruct pf. reflexivity. }
  split; [apply H|].
  apply H. apply request_cmap_valid.
Qed.

End FormRoundTrip.

(* ===================================================================== *)
(** * The further properties on concrete requests                         *)
(* ===================================================================== *)


Lemma one_result_per_request_witness :
  exists context,
    Studio.index
      (Studio.video_request "abcdefg" [("frame_skip", "2"); ("max_frames", "3")])
    = Py.Ok context
    /\ (Observations.is_set (App.image_output context)
        + Observations.is_set (App.image_error context) = 0)%nat
    /\ (Observations.is_set (App.video_outputs context)
        + Observations.is_set (App.video_error context) = 1)%nat
    /\ (Observations.is_set (App.plot_result context)
        + Observations.is_set (App.plot_error context) = 0)%nat.
Proof.
  eexists. split; [vm_compute; reflexivity|].
  apply (one_result_per_request MatrixUtils.Matrix
           Instance.format_matrix_as_sage Studio.image_to_matrix
           Instance.matrix_to_plot_png Instance.parse_matrix_literal
           Studio.video_to_matrices Instance.b64encode
           (Studio.video_request "abcdefg"
              [("frame_skip", "2"); ("max_frames", "3")])).
  vm_compute. reflexivity.
Defined.


Lemma plot_error_is_one_of_five_witness :
  exists context text,
    Studio.index (Studio.plot_request "[[1]]" " T " "low" "high" "jet")
    = Py.Ok context
    /\ App.plot_error context = Some text
    /\ Observations.request_mode
         (App.form (Studio.plot_request "[[1]]" " T " "low" "high" "jet"))
       = "plot"
    /\ ((text = "Paste a matrix definition to generate a plot."
         /\ Py.strip "[[1]]" = EmptyString)
        \/ Instance.parse_matrix_literal "[[1]]" = Py.Raise (Py.ValueError text)
        \/ (text = "vmin must be a number."
            /\ Py.float_of_str (Py.strip "low") = None)
        \/ (text = "vmax must be a number."
            /\ Py.float_of_str (Py.strip "high") = None)
        \/ (exists m vmin vmax title_value exc,
              Instance.matrix_to_plot_png m "gray" vmin vmax title_value
              = Py.Raise exc
              /\ text = "Failed to generate plot: " ++ Py.str_exn exc)).
Proof.
  eexists. eexists. split; [vm_compute; reflexivity|].
  split; [vm_compute; reflexivity|].
  apply (plot_error_is_one_of_five MatrixUtils.Matrix
           Instance.format_matrix_as_sage Studio.image_to_matrix
           Instance.matrix_to_plot_png Instance.parse_matrix_literal
           Studio.video_to_matrices Instance.b64encode
           (Studio.plot_request "[[1]]" " T " "low" "high" "jet")
           _ _ eq_refl eq_refl).
Defined.

Lemma plot_result_is_well_formed_witness :
  exists context shown,
    Studio.index
      (Studio.plot_request "M = [[1, 2], [3, 4]]" "  Heat  " EmptyString "255"
         "jet")
    = Py.Ok context
    /\ App.plot_result context = Some shown
    /\ App.plot_error context = None
    /\ App.title shown <> EmptyString
    /\ Py.strip (App.title shown) = App.title shown
    /\ (App.title shown = Py.strip "  Heat  "
        \/ (Py.strip "  Heat  " = EmptyString /\ App.title shown = "Matrix Plot"))
    /\ exists m vmin vmax title_value png_bytes,
         Instance.parse_matrix_literal "M = [[1, 2], [3, 4]]" = Py.Ok m
         /\ Instance.matrix_to_plot_png m "gray" vmin vmax title_value
            = Py.Ok png_bytes
         /\ App.data_url shown
            = "data:image/png;base64," ++ Instance.b64encode png_bytes.
Proof.
  eexists. eexists. split; [vm_compute; reflexivity|].
  split; [vm_compute; reflexivity|].
  apply (plot_result_is_well_formed MatrixUtils.Matrix
           Instance.format_matrix_as_sage Studio.image_to_matrix
           Instance.matrix_to_plot_png Instance.parse_matrix_literal
           Studio.video_to_matrices Instance.b64encode
           (Studio.plot_request "M = [[1, 2], [3, 4]]" "  Heat  " EmptyString
              "255" "jet")
           _ _ eq_refl eq_refl).
Defined.

Lemma bounds_are_checked_in_order_witness :
  Studio.index (Studio.plot_request "[[1]]" "T" "low" "high" "gray")
  = Py.Ok (App.plot_context None (Some "vmin must be a number.")
             (App.request_plot_form
                (App.form (Studio.plot_request "[[1]]" "T" "low" "high" "gray"))))
  /\ Studio.index (Studio.plot_request "[[1]]" "T" "1" "high" "gray")
     = Py.Ok (App.plot_context None (Some "vmax must be a number.")
                (App.request_plot_form
                   (App.form (Studio.plot_request "[[1]]" "T" "1" "high" "gray")))).
Proof.
  split.
  - apply (proj1 (bounds_are_checked_in_order MatrixUtils.Matrix
                    Instance.format_matrix_as_sage Studio.image_to_matrix
                    Instance.matrix_to_plot_png Instance.parse_matrix_literal
                    Studio.video_to_matrices Instance.b64encode
                    (Studio.plot_request "[[1]]" "T" "low" "high" "gray")
                    [[MatrixUtils.of_Z 1]] eq_refl eq_refl
                    ltac:(vm_compute; discriminate) eq_refl)).
    + vm_compute. discriminate.
    + reflexivity.
  - apply (proj2 (bounds_are_checked_in_order MatrixUtils.Matrix
                    Instance.format_matrix_as_sage Studio.image_to_matrix
                    Instance.matrix_to_plot_png Instance.parse_matrix_literal
                    Studio.video_to_matrices Instance.b64encode
                    (Studio.plot_request "[[1]]" "T" "1" "high" "gray")
                    [[MatrixUtils.of_Z 1]] eq_refl eq_refl
                    ltac:(vm_compute; discriminate) eq_refl)
             (Some (Py.FDec false 1 0))).
    + reflexivity.
    + vm_compute. discriminate.
    + reflexivity.
Defined.

Lemma renderer_sees_normal_arguments_witness :
  App.index MatrixUtils.Matrix Instance.format_matrix_as_sage
    Studio.image_to_matrix Studio.strict_renderer Instance.parse_matrix_literal
    Studio.video_to_matrices Instance.b64encode
    (Studio.plot_request "[[1, 2]]" "  Heat  " "0" "255" "jet")
  = Studio.index (Studio.plot_request "[[1, 2]]" "  Heat  " "0" "255" "jet").
Proof.
  apply (renderer_sees_normal_arguments MatrixUtils.Matrix
           Instance.format_matrix_as_sage Studio.image_to_matrix
           Instance.matrix_to_plot_png Instance.parse_matrix_literal
           Studio.video_to_matrices Instance.b64encode
           (Studio.plot_request "[[1, 2]]" "  Heat  " "0" "255" "jet")
           Studio.strict_renderer).
  intros m cmap vmin vmax title_value Hin Hnormal.
  unfold Studio.strict_renderer.
  apply member_In in Hin. rewrite Hin, Hnormal. reflexivity.
Defined.

Lemma missing_upload_is_reported_witness :
  Studio.index {| App.method := "POST"; App.form := [("mode", "video")];
                  App.files := [] |}
  = Py.Ok (App.video_context None (Some "Please choose a video to upload."))
  /\ Studio.index
       {| App.method := "POST"; App.form := [];
          App.files := [("image", {| App.filename := Some EmptyString;
                                     App.stream := "abz" |})] |}
     = Py.Ok (App.image_context None (Some "Please choose an image to upload.")).
Proof.
  split.
  - apply (proj2 (missing_upload_is_reported MatrixUtils.Matrix
                    Instance.format_matrix_as_sage Studio.image_to_matrix
                    Instance.matrix_to_plot_png Instance.parse_matrix_literal
                    Studio.video_to_matrices Instance.b64encode
                    {| App.method := "POST"; App.form := [("mode", "video")];
                       App.files := [] |}
                    "video" eq_refl (or_introl eq_refl)));
      reflexivity.
  - apply (proj1 (missing_upload_is_reported MatrixUtils.Matrix
                    Instance.format_matrix_as_sage Studio.image_to_matrix
                    Instance.matrix_to_plot_png Instance.parse_matrix_literal
                    Studio.video_to_matrices Instance.b64encode
                    {| App.method := "POST"; App.form := [];
                       App.files := [("image",
                                      {| App.filename := Some EmptyString;
                                         App.stream := "abz" |})] |}
                    "image" eq_refl
                    (or_intror
                       (ex_intro _ {| App.filename := Some EmptyString;
                                      App.stream := "abz" |}
                          (conj eq_refl (or_intror eq_refl))))));
      reflexivity.
Defined.

Lemma blank_matrix_text_is_reported_witness :
  Studio.index (Studio.plot_request "   " "T" "0" "255" "magma")
  = Py.Ok (App.plot_context None
             (Some "Paste a matrix definition to generate a plot.")
             (App.request_plot_form
                (App.form (Studio.plot_request "   " "T" "0" "255" "magma")))).
Proof.
  apply (blank_matrix_text_is_reported MatrixUtils.Matrix
           Instance.format_matrix_as_sage Studio.image_to_matrix
           Instance.matrix_to_plot_png Instance.parse_matrix_literal
           Studio.video_to_matrices Instance.b64encode
           (Studio.plot_request "   " "T" "0" "255" "magma"));
    reflexivity.
Defined.

Lemma missing_mode_means_image_witness :
  Studio.index {| App.method := "POST"; App.form := [];
                  App.files := [("image", Studio.upload "still.raw" "abz")] |}
  = Studio.index (Studio.image_request "abz").
Proof.
  apply (missing_mode_means_image MatrixUtils.Matrix
           Instance.format_matrix_as_sage Studio.image_to_matrix
           Instance.matrix_to_plot_png Instance.parse_matrix_literal
           Studio.video_to_matrices Instance.b64encode
           {| App.method := "POST"; App.form := [];
              App.files := [("image", Studio.upload "still.raw" "abz")] |}).
  reflexivity.
Defined.

Lemma image_response_comes_from_the_sampler_witness :
  exists context,
    Studio.index (Studio.image_request "abz") = Py.Ok context
    /\ (forall text,
          App.image_output context = Some text ->
          exists file m,
            App.file_chosen
              (App.get (App.files (Studio.image_request "abz")) "image")
            = Some file
            /\ Studio.image_to_matrix (App.stream file) (50, 50) true = Py.Ok m
            /\ Instance.format_matrix_as_sage m "M" = Py.Ok text)
    /\ (forall text,
          App.image_error context = Some text ->
          text = "Please choose an image to upload."
          \/ exists file exc,
               App.file_chosen
                 (App.get (App.files (Studio.image_request "abz")) "image")
               = Some file
               /\ text = "Failed to process image: " ++ Py.str_exn exc
               /\ (Studio.image_to_matrix (App.stream file) (50, 50) true
                   = Py.Raise exc
                   \/ exists m,
                        Studio.image_to_matrix (App.stream file) (50, 50) true
                        = Py.Ok m
                        /\ Instance.format_matrix_as_sage m "M" = Py.Raise exc)).
Proof.
  eexists. split; [vm_compute; reflexivity|].
  apply (image_response_comes_from_the_sampler MatrixUtils.Matrix
           Instance.format_matrix_as_sage Studio.image_to_matrix
           Instance.matrix_to_plot_png Instance.parse_matrix_literal
           Studio.video_to_matrices Instance.b64encode
           (Studio.image_request "abz") _ eq_refl).
Defined.

Lemma video_frames_are_numbered_from_one_witness :
  exists context outputs,
    Studio.index
      (Studio.video_request "abcdefg" [("frame_skip", "2"); ("max_frames", "3")])
    = Py.Ok context
    /\ App.video_outputs context = Some outputs
    /\ exists file matrices,
         App.file_chosen (Some (Studio.upload "clip.raw" "abcdefg")) = Some file
         /\ Studio.video_to_matrices file (50, 50) true 2 3 = Py.Ok matrices
         /\ matrices <> []
         /\ List.length outputs = List.length matrices
         /\ forall k m,
              nth_error matrices k = Some m ->
              exists text,
                Instance.format_matrix_as_sage m ("M_" ++ App.format_03d (S k))
                = Py.Ok text
                /\ nth_error outputs k
                   = Some {| App.label := "Frame " ++ App.str_nat (S k);
                             App.matrix := text |}.
Proof.
  eexists. eexists. split; [vm_compute; reflexivity|].
  split; [vm_compute; reflexivity|].
  apply (video_frames_are_numbered_from_one MatrixUtils.Matrix
           Instance.format_matrix_as_sage Studio.image_to_matrix
           Instance.matrix_to_plot_png Instance.parse_matrix_literal
           Studio.video_to_matrices Instance.b64encode
           (Studio.video_request "abcdefg"
              [("frame_skip", "2"); ("max_frames", "3")])
           _ _ eq_refl eq_refl).
Defined.

Lemma one_bad_frame_hides_the_video_witness :
  exists raised,
    Studio.index_with_failing_formatter
      (Studio.video_request "abcdefg" [("frame_skip", "2")])
    = Py.Ok (App.video_context None
               (Some ("Failed to process video: " ++ Py.str_exn raised))).
Proof.
  apply (one_bad_frame_hides_the_video MatrixUtils.Matrix
           (Studio.format_failing_on "M_002") Studio.image_to_matrix
           Instance.matrix_to_plot_png Instance.parse_matrix_literal
           Studio.video_to_matrices Instance.b64encode
           (Studio.video_request "abcdefg" [("frame_skip", "2")])
           (Studio.upload "clip.raw" "abcdefg")
           [[[MatrixUtils.of_Z 0]]; [[MatrixUtils.of_Z 0]];
            [[MatrixUtils.of_Z 0]]; [[MatrixUtils.of_Z 0]]]
           1 [[MatrixUtils.of_Z 0]] (Py.Exception_ "cannot format"));
    reflexivity.
Defined.

Lemma video_error_is_one_of_three_witness :
  exists context text,
    Studio.index (Studio.video_request EmptyString []) = Py.Ok context
    /\ App.video_error context = Some text
    /\ App.video_outputs context = None
    /\ (text = "Please choose a video to upload."
        \/ (text = "No readable frames were detected in this video."
            /\ exists file,
                 App.file_chosen (Some (Studio.upload "clip.raw" EmptyString))
                 = Some file
                 /\ Studio.video_to_matrices file (50, 50) true 1 10 = Py.Ok [])
        \/ exists exc, text = "Failed to process video: " ++ Py.str_exn exc).
Proof.
  eexists. eexists. split; [vm_compute; reflexivity|].
  split; [vm_compute; reflexivity|].
  apply (video_error_is_one_of_three MatrixUtils.Matrix
           Instance.format_matrix_as_sage Studio.image_to_matrix
           Instance.matrix_to_plot_png Instance.parse_matrix_literal
           Studio.video_to_matrices Instance.b64encode
           (Studio.video_request EmptyString []) _ _ eq_refl eq_refl).
Defined.

Lemma sampler_sees_a_valid_policy_witness :
  App.index MatrixUtils.Matrix Instance.format_matrix_as_sage
    Studio.image_to_matrix Instance.matrix_to_plot_png
    Instance.parse_matrix_literal Studio.strict_sampler Instance.b64encode
    (Studio.video_request "abcdefg" [("frame_skip", "-3"); ("max_frames", "99")])
  = Studio.index
      (Studio.video_request "abcdefg"
         [("frame_skip", "-3"); ("max_frames", "99")]).
Proof.
  apply (sampler_sees_a_valid_policy MatrixUtils.Matrix
           Instance.format_matrix_as_sage Studio.image_to_matrix
           Instance.matrix_to_plot_png Instance.parse_matrix_literal
           Studio.video_to_matrices Instance.b64encode
           (Studio.video_request "abcdefg"
              [("frame_skip", "-3"); ("max_frames", "99")])
           Studio.strict_sampler).
  intros file frame_skip max_frames Hskip [Hlo Hhi].
  unfold Studio.strict_sampler.
  apply Z.leb_le in Hskip, Hlo, Hhi. rewrite Hskip, Hlo, Hhi. reflexivity.
Defined.

Section StudioSampler.
Import Py MatrixUtils.

Lemma traverse_length {A B : Type} (f : A -> outcome B) (xs : list A) :
  forall ys, traverse f xs = Done ys -> List.length ys = List.length xs.
Proof.
  induction xs as [|x rest IH]; intros ys; cbn [traverse].
  - intros [= <-]. reflexivity.
  - destruct (f x) as [y|e]; cbn [MatrixUtils.bind]; [|discriminate].
    destruct (traverse f rest) as [ys'|e]; cbn [MatrixUtils.bind];
      [|discriminate].
    intros [= <-]. simpl. rewrite (IH ys' eq_refl). reflexivity.
Qed.

Lemma select_frames_capped (Image : Type) (frame_skip max_frames : Z)
    (frames : list Image) :
  forall index emitted,
    emitted <= max_frames ->
    Z.of_nat (List.length
                (select_frames Image frame_skip max_frames index emitted frames))
    <= max_frames - emitted.
Proof.
  induction frames as [|frame rest IH]; intros index emitted Hle;
    cbn [select_frames].
  - simpl. lia.
  - destruct (Z.leb_spec max_frames emitted) as [Hfull|Hroom]; [simpl; lia|].
    destruct (index mod frame_skip =? 0).
    + cbn [List.length]. specialize (IH (index + 1) (emitted + 1)). lia.
    + specialize (IH (index + 1) emitted). lia.
Qed.

(** The sampler of the second instance honours the frame cap. *)
Lemma studio_sampler_capped (file : App.FileStorage) (size : Z * Z)
    (rescale : bool) (frame_skip max_frames : Z)
    (matrices : list Matrix) :
  1 <= max_frames ->
  Studio.video_to_matrices file size rescale frame_skip max_frames = Ok matrices ->
  Z.of_nat (List.length matrices) <= max_frames.
Proof.
  intros Hmax. unfold Studio.video_to_matrices, video_to_matrices, Studio.lift.
  cbn [Instance.open_video].
  destruct (traverse _ _) as [ms|e] eqn:Ht.
  - intros [= <-]. rewrite (traverse_length _ _ _ Ht).
    pose proof (select_frames_capped Instance.Image frame_skip max_frames
                  (map (fun v => [[v]]) (Instance.samples (App.stream file)))
                  0 0) as H.
    lia.
  - destruct e; discriminate.
Qed.

End StudioSampler.

Lemma at_most_25_frames_are_shown_witness :
  exists context outputs,
    Studio.index
      (Studio.video_request "abcdefghijklmnopqrstuvwxyz0123456789"
         [("max_frames", "99")])
    = Py.Ok context
    /\ App.video_outputs context = Some outputs
    /\ (1 <= List.length outputs <= 25)%nat.
Proof.
  eexists. eexists. split; [vm_compute; reflexivity|].
  split; [vm_compute; reflexivity|].
  apply (at_most_25_frames_are_shown MatrixUtils.Matrix
           Instance.format_matrix_as_sage Studio.image_to_matrix
           Instance.matrix_to_plot_png Instance.parse_matrix_literal
           Studio.video_to_matrices Instance.b64encode
           (Studio.video_request "abcdefghijklmnopqrstuvwxyz0123456789"
              [("max_frames", "99")])
           _ _ studio_sampler_capped eq_refl eq_refl).
Defined.

Lemma frame_names_are_distinct_witness :
  (3 <= String.length (App.format_03d 12))%nat
  /\ Py.digits_value 0 (App.format_03d 12) = 12
  /\ ("M_" ++ App.format_03d 12 = "M_" ++ App.format_03d 12 -> 12 = 12)%nat
  /\ ("Frame " ++ App.str_nat 12 = "Frame " ++ App.str_nat 12 -> 12 = 12)%nat.
Proof.
  apply (frame_names_are_distinct 12 12).
Defined.

Lemma bound_ignores_surrounding_whitespace_witness :
  App._parse_optional_float (Some ("  " ++ "1.5" ++ " ")) "vmin"
  = App._parse_optional_float (Some "1.5") "vmin".
Proof.
  apply (bound_ignores_surrounding_whitespace "  " "1.5" " " "vmin");
    reflexivity.
Defined.

Lemma safe_int_reads_decimal_text_witness :
  App._safe_int (Some (MatrixUtils.str_Z 300)) 10 1 (Some 25)
  = Statements.clamp 1 (Some 25) 300
  /\ App._safe_int (Some (MatrixUtils.str_Z 7)) 10 1 (Some 25) = 7.
Proof.
  split.
  - apply (proj1 (safe_int_reads_decimal_text 300 10 1 (Some 25)
                    ltac:(vm_compute; lia))).
  - apply (proj2 (safe_int_reads_decimal_text 7 10 1 (Some 25)
                    ltac:(vm_compute; lia))).
    + lia.
    + intros m [= <-]. lia.
Defined.

Lemma shown_form_reads_back_witness :
  App.request_plot_form (Observations.fields_of App.PLOT_DEFAULT_FORM)
  = App.PLOT_DEFAULT_FORM.
Proof.
  apply (proj1 (shown_form_reads_back App.PLOT_DEFAULT_FORM [])).
  simpl. auto.
Defined.

